(** * ColonyScanalyser: colonies, the filter pipeline and the plate lattice

A shallow embedding of three source files:
- [src/scanlag/colony.py]: the [Colony] class, its [Timepoint] records
  and [timepoints_from_image];
- [src/colonyscanalyser/colonyscanalyser.py]: the three colony filters
  applied in [main], and [get_plate_directory];
- [src/src/colonyscanalyser/plate.py]: the lattice arithmetic of
  [PlateCollection], and [Plate.colonies_rename_sequential].

Conventions.  A Python [int] is a [Z].  A float is a binary64 value
([spec_float] at precision 53) wherever an outcome depends on its
arithmetic: in the product of the first filter, in [numpy.prod], and in
the divisions of the two metric formulas of [Colony] ([Colony64], which
also tells Python's [float] from NumPy's [float64]).  Inside the methods
of [Colony], which raise before any arithmetic is done, the same
formulas are written over the real numbers.  A [dict] is a [gmap];
objects that are shared and mutated in place live in an explicit heap.
A call either returns a value or raises a Python exception. *)

From Stdlib Require Import ZArith Reals Lra Lia String Ascii.
From Stdlib Require Import Floats.SpecFloat.
From stdpp Require Import gmap strings list fin_maps pretty.

Local Open Scope Z_scope.
Local Set Warnings "-clear-no-such-hyp".

(** ** Exceptions and results *)

(** The exceptions the three files raise, or cause the interpreter to
    raise.  A message is the literal of the [raise] statement (for an
    f-string, the template text as written in the source); exceptions
    that only the interpreter raises carry none, their wording depending
    on the Python version. *)
Inductive exception : Type :=
| ValueError (msg : string)
| IndexError (msg : string)
| KeyError
| TypeError
| AttributeError
| ZeroDivisionError.

(** The outcome of a call.  [Stuck] marks the places where the model has
    no behaviour to give because Python cannot get there: a branch behind
    a validation that excludes it, or a reference without an object. *)
Inductive result (A : Type) : Type :=
| Ok (a : A)
| Raise (e : exception)
| Stuck.

Arguments Ok {A} a.
Arguments Raise {A} e.
Arguments Stuck {A}.

Definition bind {A B : Type} (r : result A) (k : A → result B) : result B :=
  match r with
  | Ok a => k a
  | Raise e => Raise e
  | Stuck => Stuck
  end.

Notation "x ←! r ; k" := (bind r (λ x, k))
  (at level 20, r at level 100, k at level 200, right associativity,
   format "x  ←!  r ;  '/' k").

Definition raises {A : Type} (r : result A) (e : exception) : Prop :=
  r = Raise e.

Definition returns {A : Type} (r : result A) : Prop :=
  ∃ a, r = Ok a.

(** ** Python values that may sit in a lattice tuple *)

Module Py.

(** What a component of a [shape] or [coordinate] tuple can be at run
    time.  The annotations say [int]; the validation tests it. *)
Inductive val : Type :=
| Int (z : Z)
| Float (x : spec_float)
| Str (s : string)
| None.

(** Truth value of a component, as [all(...)] tests it. *)
Definition truthy (v : val) : bool :=
  match v with
  | Int z => negb (z =? 0)
  | Float (S754_zero _) => false
  | Float _ => true
  | Str s => negb (String.eqb s EmptyString)
  | None => false
  end.

End Py.

(** ** Plate lattice: [PlateCollection] in plate.py *)

Module PlateCollection.

(** A [Tuple[int, int]] as annotated; the components are run-time
    values. *)
Definition pair : Type := Py.val * Py.val.

(** [(not isinstance(val, int) or val < 1)] for one component; [or]
    does not evaluate [val < 1] on a non-int. *)
Definition bad_component (v : Py.val) : bool :=
  match v with
  | Py.Int z => z <? 1
  | _ => true
  end.

(** [__is_valid_shape] (plate.py:360-365):
    [all(shape) and not any([... for val in shape])]. *)
Definition is_valid_shape (shape : pair) : bool :=
  let '(a, b) := shape in
  (Py.truthy a && Py.truthy b) && negb (bad_component a || bad_component b).

(** The conversion of an int to [float64], rounded to nearest even, and
    the value of a [float64] that is a whole number (its exponent is not
    negative). *)
Definition to_float64 (z : Z) : spec_float := binary_normalize 53 1024 z 0 false.

Definition float64_value (x : spec_float) : Z :=
  match x with
  | S754_finite s m e => (if s then Z.neg m else Z.pos m) * 2 ^ e
  | _ => 0
  end.

(** [numpy.prod] of a tuple of two validated (hence positive) Python
    ints, on a platform whose default NumPy integer has 64 bits.  NumPy
    gives the array the type [int64] when both ints are below 2^63, and
    the type [object] (Python ints, multiplied exactly) when one of them
    is 2^64 or more.  Of two ints below 2^64, it gives [uint64] when both
    are 2^63 or more, and [float64] when only one is: the common type of
    [int64] and [uint64].  The fixed-width products wrap around; the
    [float64] product, at least 2^63 and so a whole number, is given by
    its value. *)
Definition np_prod (a b : Z) : Z :=
  if (a <? 2 ^ 63) && (b <? 2 ^ 63)
  then (a * b + 2 ^ 63) mod 2 ^ 64 - 2 ^ 63
  else if (2 ^ 64 <=? a) || (2 ^ 64 <=? b)
  then a * b
  else if (2 ^ 63 <=? a) && (2 ^ 63 <=? b)
  then (a * b) mod 2 ^ 64
  else float64_value (SFmul 53 1024 (to_float64 a) (to_float64 b)).

Definition coordinate_msg : string :=
  "The supplied coordinates, {coordinate}, are not valid. All values must be non-negative integers".

Definition index_or_shape_msg : string :=
  "The supplied index or shape is not valid. All values must be non-negative integers".

Definition index_size_msg : string :=
  "Index number is greater than the supplied shape size".

(** [coordinate_to_index] (plate.py:317-334).  Its only parameter is the
    coordinate.  A tuple that passed the validation holds two ints, so
    the last branch is not reached. *)
Definition coordinate_to_index (coordinate : pair) : result Z :=
  if negb (is_valid_shape coordinate)
  then Raise (ValueError coordinate_msg)
  else
    match coordinate with
    | (Py.Int row, Py.Int col) => Ok (np_prod row col)
    | _ => Stuck
    end.

(** [index_to_coordinate] (plate.py:336-358).  [//] and [%] are floor
    division and its remainder, which on [Z] are [/] and [mod]. *)
Definition index_to_coordinate (index : Z) (shape : pair) : result (Z * Z) :=
  if (index <? 1) || negb (is_valid_shape shape)
  then Raise (ValueError index_or_shape_msg)
  else
    match shape with
    | (Py.Int shape_row, Py.Int shape_col) =>
        let row := (index - 1) / shape_col + 1 in
        let col := (index - 1) mod shape_col + 1 in
        if (row >? shape_row) || (col >? shape_col)
        then Raise (IndexError index_size_msg)
        else Ok (row, col)
    | _ => Stuck
    end.

(** The spec's names for the two lattice errors, as the source raises
    them. *)
Definition InvalidShapeError : exception := ValueError coordinate_msg.
Definition IndexOutOfBoundsError : exception := IndexError index_size_msg.

(** The spec's [to_index(coordinate, shape)] is [coordinate_to_index];
    the source function has no [shape] parameter, so the second argument
    is not passed on. *)
Definition to_index (coordinate shape : pair) : result Z :=
  coordinate_to_index coordinate.

Definition to_coordinate (index : Z) (shape : pair) : result (Z * Z) :=
  index_to_coordinate index shape.

(** The index the spec describes, following its words: row-major and
    1-based, [(row - 1) * columns + column]. *)
Definition row_major_index (row column columns : Z) : Z :=
  (row - 1) * columns + column.

(** A coordinate of positive integers componentwise within a shape of
    positive integers. *)
Definition within (row column rows columns : Z) : Prop :=
  1 ≤ row ≤ rows ∧ 1 ≤ column ≤ columns.

Definition ints (a b : Z) : pair := (Py.Int a, Py.Int b).

End PlateCollection.

(** ** Builtins used by colony.py *)

Module Builtins.

(** A list comprehension whose body can raise: the elements are computed
    from left to right and the first exception ends it. *)
Fixpoint comprehension {A B : Type} (f : A → result B) (l : list A)
  : result (list B) :=
  match l with
  | [] => Ok []
  | a :: l' => b ←! f a; bs ←! comprehension f l'; Ok (b :: bs)
  end.

(** [range(n)]: empty when [n <= 0]. *)
Definition range (n : Z) : list Z := seqZ 0 n.

(** [len(l)]. *)
Definition len {A : Type} (l : list A) : Z := Z.of_nat (length l).

(** [l[i]] on a list: a negative index counts from the end, an index
    out of range raises [IndexError]. *)
Definition getitem {A : Type} (l : list A) (i : Z) : result A :=
  let j := if i <? 0 then i + len l else i in
  if j <? 0
  then Raise (IndexError "list index out of range")
  else
    match l !! Z.to_nat j with
    | Some a => Ok a
    | None => Raise (IndexError "list index out of range")
    end.

(** [f(iterable, key=...)] for a builtin [f] that accepts no [key]
    keyword, as [list] and [sum] do not: the interpreter raises
    [TypeError] once the arguments are evaluated and before [f] runs, so
    the call has no result of any type. *)
Definition call_with_key_keyword {A B : Type} (iterable : A) : result B :=
  Raise TypeError.

(** [min(iterable, key=key)]: [ValueError] on an empty iterable;
    otherwise [key] is applied to every item in turn, and an exception
    from [key] ends the call. *)
Fixpoint min_loop {A : Type} (key : A → result Z) (best : A) (kbest : Z)
  (l : list A) : result A :=
  match l with
  | [] => Ok best
  | a :: l' =>
      ka ←! key a;
      if ka <? kbest then min_loop key a ka l' else min_loop key best kbest l'
  end.

Definition min_with_key {A : Type} (l : list A) (key : A → result Z)
  : result A :=
  match l with
  | [] => Raise (ValueError "min() arg is an empty sequence")
  | a :: l' => ka ←! key a; min_loop key a ka l'
  end.

(** [a / b] on Python numbers read as reals, without rounding:
    [ZeroDivisionError] when the divisor is zero.  The binary64 division,
    and what NumPy's [float64] does at zero, are in [Colony64]. *)
Definition truediv (a b : R) : result R :=
  if Req_dec_T b 0 then Raise ZeroDivisionError else Ok (a / b)%R.

(** [math.log(x)] on a real, without rounding: [ValueError] outside the
    domain. *)
Definition math_log (x : R) : result R :=
  if Rle_dec x 0 then Raise (ValueError "math domain error") else Ok (ln x).

End Builtins.

(** ** The [Colony] class of colony.py *)

Module Colony.

(** The nested [Timepoint] dataclass.  A [datetime] is a point on the
    time line, an integer count of microseconds; the three float fields
    are real numbers. *)
Module Timepoint.
Record t : Type := mk {
  date_time : Z;
  area : Z;
  center : R * R;
  diameter : R;
  perimeter : R
}.
End Timepoint.

(** A [Colony] object: [self.id] and the private dict
    [self.__timepoints], keyed by [datetime].  The order in which a dict
    yields its keys is not kept: the methods that iterate over the dict
    raise on the first key. *)
Record t : Type := mk {
  id : Z;
  __timepoints : gmap Z Timepoint.t
}.

(** [__init__] (colony.py:19-24): [None] becomes a new empty dict. *)
Definition __init__ (id : Z) (timepoints : option (gmap Z Timepoint.t))
  : t :=
  match timepoints with
  | Some d => mk id d
  | None => mk id ∅
  end.

Definition no_timepoints_msg : string :=
  "No time points are stored for this colony".

Definition timepoint_exists_msg : string :=
  "This time point already exists".

(** The spec's names for the two errors, as the source raises them. *)
Definition EmptyColonyError : exception := ValueError no_timepoints_msg.
Definition DuplicateTimepointError : exception :=
  ValueError timepoint_exists_msg.

(** The [timepoints] property (colony.py:26-31). *)
Definition timepoints (self : t) : result (gmap Z Timepoint.t) :=
  if 0 <? Z.of_nat (size (__timepoints self))
  then Ok (__timepoints self)
  else Raise (ValueError no_timepoints_msg).

(** The [timepoint] property (colony.py:37-42) is declared with a second
    parameter.  A property getter is called with [self] alone, so every
    read of [self.timepoint] raises [TypeError] for the missing
    argument. *)
Definition timepoint {A : Type} (self : t) : result A :=
  Raise TypeError.

(** [append_timepoint] (colony.py:44-48).  The method mutates [self];
    the colony after the call is returned next to the outcome. *)
Definition append_timepoint (time_point : Z) (timepointdata : Timepoint.t)
  (self : t) : result unit * t :=
  match __timepoints self !! time_point with
  | None =>
      (Ok (), mk (id self) (<[time_point := timepointdata]> (__timepoints self)))
  | Some _ => (Raise (ValueError timepoint_exists_msg), self)
  end.

(** [__circularity] (colony.py:80-81). *)
Definition __circularity (area perimeter : R) : result R :=
  Builtins.truediv (4 * PI * area)%R (perimeter * perimeter)%R.

(** [tp.perimiter]: the dataclass has a field [perimeter] and none of
    this name. *)
Definition perimiter (tp : Timepoint.t) : result R :=
  Raise AttributeError.

(** [circularity_at_timepoint] (colony.py:71-72).  The first operand to
    be evaluated is [self.timepoint], of which [[time_point]] would take a
    record. *)
Definition circularity_at_timepoint (self : t) (time_point : Z) : result R :=
  tp ←! timepoint (A := Timepoint.t) self;
  let area := Timepoint.area tp in
  tp' ←! timepoint (A := Timepoint.t) self;
  perimeter ←! perimiter tp';
  __circularity (IZR area) perimeter.

(** [__local_doubling_time] (colony.py:83-90).  The left operand of the
    last division is evaluated first, then [y2 / y1], then its
    logarithm. *)
Definition __local_doubling_time (index : Z) (x_pts y_pts : list R)
  (window : Z) : result R :=
  x1 ←! Builtins.getitem x_pts index;
  y1 ←! Builtins.getitem y_pts index;
  x2 ←! Builtins.getitem x_pts (index + window);
  y2 ←! Builtins.getitem y_pts (index + window);
  let numerator := ((x2 - x1) * ln 2)%R in
  ratio ←! Builtins.truediv y2 y1;
  denominator ←! Builtins.math_log ratio;
  Builtins.truediv numerator denominator.

(** The list comprehension that ends [doubling_time]. *)
Definition local_doubling_times (x_pts y_pts : list R) (window : Z)
  : result (list R) :=
  Builtins.comprehension
    (λ i, __local_doubling_time i x_pts y_pts window)
    (Builtins.range (Builtins.len x_pts - window)).

(** [doubling_time] (colony.py:53-57).  Each [self.timepoints] is read
    through the property before [list] is called with it. *)
Definition doubling_time (self : t) : result (list R) :=
  d ←! timepoints self;
  x_pts ←! Builtins.call_with_key_keyword d;
  d' ←! timepoints self;
  y_pts ←! Builtins.call_with_key_keyword d';
  let window := 10 in
  local_doubling_times x_pts y_pts window.

(** [center] (colony.py:65-66): [sum] is called with [key]. *)
Definition center (self : t) : result R :=
  d ←! timepoints self;
  total ←! Builtins.call_with_key_keyword d;
  d' ←! timepoints self;
  Builtins.truediv total (IZR (Z.of_nat (size d'))).

(** [get_areas] (colony.py:74-75): [list] is called with [key]. *)
Definition get_areas (self : t) : result (list Z) :=
  d ←! timepoints self;
  Builtins.call_with_key_keyword d.

(** [attrgetter('date_time')] applied to a key of the dict.  The keys
    are [datetime] objects, which have no attribute [date_time]. *)
Definition attrgetter_date_time (key : Z) : result Z :=
  Raise AttributeError.

(** [time_of_appearance] (colony.py:77-78): [min] iterates over the
    dict, that is over its keys. *)
Definition time_of_appearance (self : t) : result Z :=
  d ←! timepoints self;
  Builtins.min_with_key (map_to_list d).*1 attrgetter_date_time.

(** Modelled from the spec: [growth_rate] is missing from the [Colony]
    class of colony.py ([main] reads it from colonies of a later class
    that is not among the sources).  Per the spec it is a derived
    metric, [a single comparable scalar] summarising the stored series
    whose exact formula is an implementation choice, and [querying
    metrics on an empty Colony fails]; so it reads the guarded
    [timepoints] property and applies a formula left as a parameter. *)
Definition growth_rate (formula : gmap Z Timepoint.t → R) (self : t)
  : result R :=
  d ←! timepoints self;
  Ok (formula d).

(** [update_timepoint] (colony.py:50-51).  The target of the assignment
    is [self.timepoint[time_point]], so [self.timepoint] is read first; a
    record would not take an item assignment either. *)
Definition update_timepoint (time_point : Z) (timepointdata : Timepoint.t)
  (self : t) : result unit * t :=
  (tp ←! timepoint (A := Timepoint.t) self; Raise TypeError, self).

(** [remove_timepoint] (colony.py:59-60): [del self.timepoint[time_point]]
    reads [self.timepoint] first. *)
Definition remove_timepoint (time_point : Z) (self : t) : result unit * t :=
  (tp ←! timepoint (A := Timepoint.t) self; Raise TypeError, self).

(** A call of one of the three methods that are written to change the
    records of a colony. *)
Inductive mutation : Type :=
  | Append (time_point : Z) (timepointdata : Timepoint.t)
  | Update (time_point : Z) (timepointdata : Timepoint.t)
  | Remove (time_point : Z).

Definition mutate (call : mutation) (self : t) : result unit * t :=
  match call with
  | Append time_point timepointdata =>
      append_timepoint time_point timepointdata self
  | Update time_point timepointdata =>
      update_timepoint time_point timepointdata self
  | Remove time_point => remove_timepoint time_point self
  end.

(** The calls made one after the other by a caller that catches every
    exception and goes on: the colony after the last call. *)
Definition mutate_all (calls : list mutation) (self : t) : t :=
  foldl (λ colony call, (mutate call colony).2) self calls.

(** Calls of [append_timepoint] on one colony, one statement after the
    other: the first exception ends the sequence. *)
Fixpoint append_timepoints (entries : list (Z * Timepoint.t)) (self : t)
  : result unit * t :=
  match entries with
  | [] => (Ok (), self)
  | (time_point, timepointdata) :: rest =>
      match append_timepoint time_point timepointdata self with
      | (Ok _, self') => append_timepoints rest self'
      | (outcome, self') => (outcome, self')
      end
  end.

End Colony.

(** ** Objects shared by reference *)

(** [timepoints_from_image] copies a dict of colonies and mutates the
    [Colony] objects it holds.  Dicts of colonies and [Colony] objects are
    therefore kept in a heap and named by references; a dict of colonies
    maps a label to the reference of a [Colony]. *)
Module Heap.

Definition ref : Type := positive.

Record t : Type := mk {
  dicts : gmap ref (gmap Z ref);
  colonies : gmap ref Colony.t
}.

(** A computation on the heap: an outcome and the heap it leaves, also
    when it raises. *)
Definition stateful (A : Type) : Type := t → result A * t.

Definition ret {A : Type} (a : A) : stateful A := λ h, (Ok a, h).

Definition bind {A B : Type} (m : stateful A) (k : A → stateful B)
  : stateful B :=
  λ h,
    match m h with
    | (Ok a, h') => k a h'
    | (Raise e, h') => (Raise e, h')
    | (Stuck, h') => (Stuck, h')
    end.

(** A [for] loop over a list, ended by the first exception. *)
Fixpoint for_each {A : Type} (l : list A) (body : A → stateful unit)
  : stateful unit :=
  match l with
  | [] => ret ()
  | a :: l' => bind (body a) (λ _, for_each l' body)
  end.

(** [d.copy()]: a new dict object with the same keys and the same
    references as values. *)
Definition dict_copy (d : ref) : stateful ref :=
  λ h,
    match dicts h !! d with
    | Some content =>
        let d' := fresh (dom (dicts h)) in
        (Ok d', mk (<[d' := content]> (dicts h)) (colonies h))
    | None => (Stuck, h)
    end.

(** [key in d] and [key not in d]. *)
Definition dict_contains (d : ref) (key : Z) : stateful bool :=
  λ h,
    match dicts h !! d with
    | Some content => (Ok (bool_decide (is_Some (content !! key))), h)
    | None => (Stuck, h)
    end.

(** [d[key] = value]. *)
Definition dict_setitem (d : ref) (key : Z) (value : ref) : stateful unit :=
  λ h,
    match dicts h !! d with
    | Some content =>
        (Ok (), mk (<[d := <[key := value]> content]> (dicts h)) (colonies h))
    | None => (Stuck, h)
    end.

(** [d[key]]. *)
Definition dict_getitem (d : ref) (key : Z) : stateful ref :=
  λ h,
    match dicts h !! d with
    | Some content =>
        match content !! key with
        | Some value => (Ok value, h)
        | None => (Raise KeyError, h)
        end
    | None => (Stuck, h)
    end.

(** [Colony(id)]: a new object. *)
Definition new_colony (id : Z) : stateful ref :=
  λ h,
    let c := fresh (dom (colonies h)) in
    (Ok c, mk (dicts h) (<[c := Colony.__init__ id None]> (colonies h))).

(** [c.append_timepoint(time_point, data)] on the object that [c]
    names. *)
Definition append_timepoint (c : ref) (time_point : Z)
  (data : Colony.Timepoint.t) : stateful unit :=
  λ h,
    match colonies h !! c with
    | Some self =>
        let '(outcome, self') := Colony.append_timepoint time_point data self in
        (outcome, mk (dicts h) (<[c := self']> (colonies h)))
    | None => (Stuck, h)
    end.

End Heap.

Notation "x ←$ m ; k" := (Heap.bind m (λ x, k))
  (at level 20, m at level 100, k at level 200, right associativity,
   format "x  ←$  m ;  '/' k").

(** ** [timepoints_from_image] of colony.py *)

(** One item of [skimage.measure.regionprops(image)], with the attributes
    the function reads.  [regionprops] is not part of the repository: a
    labelled image is given by the list of regions it yields. *)
Module RegionProperties.
Record t : Type := mk {
  label : Z;
  area : Z;
  centroid : R * R;
  equivalent_diameter : R;
  perimeter : R
}.
End RegionProperties.

(** The [Colony.Timepoint(...)] built in the loop. *)
Definition timepoint_of_region (rp : RegionProperties.t) (time_point : Z)
  : Colony.Timepoint.t :=
  Colony.Timepoint.mk time_point
    (RegionProperties.area rp)
    (RegionProperties.centroid rp)
    (RegionProperties.equivalent_diameter rp)
    (RegionProperties.perimeter rp).

(** The body of the loop (colony.py:105-118), for the copy [colonies]. *)
Definition timepoints_from_image_body (colonies : Heap.ref) (time_point : Z)
  (rp : RegionProperties.t) : Heap.stateful unit :=
  let timepoint_data := timepoint_of_region rp time_point in
  known ←$ Heap.dict_contains colonies (RegionProperties.label rp);
  u ←$ (if negb known
        then
          c ←$ Heap.new_colony (RegionProperties.label rp);
          Heap.dict_setitem colonies (RegionProperties.label rp) c
        else Heap.ret ());
  c ←$ Heap.dict_getitem colonies (RegionProperties.label rp);
  Heap.append_timepoint c (Colony.Timepoint.date_time timepoint_data)
    timepoint_data.

(** [timepoints_from_image] (colony.py:93-120).  [colonies_dict] is the
    reference of the caller's dict; the reference returned is that of the
    copy. *)
Definition timepoints_from_image (colonies_dict : Heap.ref)
  (image : list RegionProperties.t) (time_point : Z) : Heap.stateful Heap.ref :=
  colonies ←$ Heap.dict_copy colonies_dict;
  u ←$ Heap.for_each image (timepoints_from_image_body colonies time_point);
  Heap.ret colonies.

(** ** [Plate.colonies_rename_sequential] of plate.py *)

Module Plate.

(** How a call of [colonies_rename_sequential] ends.  The local [i] that
    the method returns is bound by the loop only. *)
Inductive rename_outcome : Type :=
| Returned (i : Z)
| UnboundLocalError
| NoObject.

(** [colony.id = i] on the object that [c] names. *)
Definition set_id (c : Heap.ref) (i : Z) (h : Heap.t) : option Heap.t :=
  match Heap.colonies h !! c with
  | Some self =>
      Some (Heap.mk (Heap.dicts h)
              (<[c := Colony.mk i (Colony.__timepoints self)]> (Heap.colonies h)))
  | None => None
  end.

(** The loop over [enumerate(self.items, start = start)] and the
    [return i] that follows.  [bound] is the value of the local [i], if
    the loop has bound it. *)
Fixpoint rename_loop (items : list Heap.ref) (next : Z) (bound : option Z)
  (h : Heap.t) : rename_outcome * Heap.t :=
  match items with
  | [] =>
      (match bound with
       | Some i => Returned i
       | None => UnboundLocalError
       end, h)
  | c :: rest =>
      match set_id c next h with
      | Some h' => rename_loop rest (next + 1) (Some next) h'
      | None => (NoObject, h)
      end
  end.

(** [colonies_rename_sequential] (plate.py:141-151).  [items] are the
    references that [self.items] yields, in its order; the [Colony]
    objects are those of colony.py, whose [id] is a plain attribute. *)
Definition colonies_rename_sequential (items : list Heap.ref) (start : Z)
  (h : Heap.t) : rename_outcome * Heap.t :=
  rename_loop items start None h.

End Plate.

(** ** Binary64 arithmetic of the filters *)

Module Float.

Definition prec : Z := 53.
Definition emax : Z := 1024.

(** The conversion of an [int] operand of a mixed product, rounded to
    nearest even.  (Python refuses an int beyond the float range; a
    count of images is far below it.) *)
Definition of_int (n : Z) : spec_float := binary_normalize prec emax n 0 false.

Definition mul (x y : spec_float) : spec_float := SFmul prec emax x y.

(** The literal [0.2]: the double [0x3FC999999999999A]. *)
Definition lit_0_2 : spec_float := S754_finite false 7205759403792794 (-55).

(** Python compares a float with an int by their exact values; with a
    NaN every comparison is false. *)
Definition compare_int (x : spec_float) (k : Z) : option comparison :=
  match x with
  | S754_nan => None
  | S754_infinity s => Some (if s then Lt else Gt)
  | S754_zero _ => Some (0 ?= k)
  | S754_finite s m e =>
      let v := if s then Z.neg m else Z.pos m in
      Some (v * 2 ^ Z.max e 0 ?= k * 2 ^ Z.max (- e) 0)
  end.

(** [k > x] for an int [k] and a float [x]. *)
Definition int_gt (k : Z) (x : spec_float) : bool :=
  match compare_int x k with
  | Some Lt => true
  | _ => false
  end.

(** [x > k] for a float [x] and an int [k]. *)
Definition gt_int (x : spec_float) (k : Z) : bool :=
  match compare_int x k with
  | Some Gt => true
  | _ => false
  end.

End Float.

(** ** The two metric formulas of [Colony] on binary64 values *)

(** [__circularity] and [__local_doubling_time] of colony.py once more,
    on the floats the interpreter computes with.  What a division by zero
    does depends on the class of its operands, so a number carries its
    class next to its binary64 value. *)
Module Colony64.

(** Python's own [float], or NumPy's [float64], the class of the
    perimeter that [regionprops] measures. *)
Inductive kind : Type := Python | NumPy.

(** An [int] operand is given by the [float] it converts to, and a NumPy
    integer by a [float64]: the conversion is exact below 2^53, far above
    a count of pixels or of minutes. *)
Record number : Type := mk {
  class_of : kind;
  value : spec_float
}.

Definition of_int (z : Z) : number := mk Python (Float.of_int z).

(** The class of the result of a binary operation: NumPy's as soon as one
    operand is NumPy's. *)
Definition result_class (a b : kind) : kind :=
  match a, b with
  | Python, Python => Python
  | _, _ => NumPy
  end.

Definition is_zero (x : spec_float) : bool :=
  match x with
  | S754_zero _ => true
  | _ => false
  end.

(** [a * b] and [a - b]: neither raises; an overflow gives an infinity. *)
Definition mul (a b : number) : number :=
  mk (result_class (class_of a) (class_of b))
     (SFmul Float.prec Float.emax (value a) (value b)).

Definition sub (a b : number) : number :=
  mk (result_class (class_of a) (class_of b))
     (SFsub Float.prec Float.emax (value a) (value b)).

(** [a / b].  Between two Python numbers a divisor equal to zero raises
    [ZeroDivisionError].  When an operand is NumPy's, NumPy divides: at a
    zero divisor it returns the IEEE 754 quotient, an infinity or a NaN,
    and (with its default error settings) only warns. *)
Definition truediv (a b : number) : result number :=
  match class_of a, class_of b with
  | Python, Python =>
      if is_zero (value b)
      then Raise ZeroDivisionError
      else Ok (mk Python (SFdiv Float.prec Float.emax (value a) (value b)))
  | _, _ => Ok (mk NumPy (SFdiv Float.prec Float.emax (value a) (value b)))
  end.

(** [math.pi], the double [0x400921FB54442D18], and the doubles 1.0 and
    2.0. *)
Definition pi : number := mk Python (S754_finite false 7074237752028440 (-51)).
Definition one : spec_float := S754_finite false 4503599627370496 (-52).
Definition two : number := mk Python (S754_finite false 4503599627370496 (-51)).

(** [__circularity] (colony.py:80-81):
    [(4 * pi * area) / (perimeter * perimeter)]. *)
Definition __circularity (area perimeter : number) : result number :=
  truediv (mul (mul (of_int 4) pi) area) (mul perimeter perimeter).

Section Libm.

(** The [log] of the C library on a finite double above zero.  Its
    values are the platform's; the C standard fixes [log(1.0)], which is
    [+0.0]. *)
Variable libm_log : spec_float → spec_float.

(** [math.log(x)]: the argument is converted to a Python [float] and the
    result is one.  A NaN gives a NaN and the positive infinity itself;
    zero and every negative argument raise [ValueError]. *)
Definition math_log (x : number) : result number :=
  match value x with
  | S754_nan => Ok (mk Python S754_nan)
  | S754_infinity false => Ok (mk Python (S754_infinity false))
  | S754_finite false _ _ => Ok (mk Python (libm_log (value x)))
  | _ => Raise (ValueError "math domain error")
  end.

(** [__local_doubling_time] (colony.py:83-90):
    [(x2 - x1) * log(2) / log(y2 / y1)], evaluated from left to right.
    The times are numbers, such as minutes elapsed; two [datetime]
    objects, whose difference is a [timedelta], are not part of this
    model. *)
Definition __local_doubling_time (index : Z) (x_pts y_pts : list number)
  (window : Z) : result number :=
  x1 ←! Builtins.getitem x_pts index;
  y1 ←! Builtins.getitem y_pts index;
  x2 ←! Builtins.getitem x_pts (index + window);
  y2 ←! Builtins.getitem y_pts (index + window);
  log_2 ←! math_log two;
  let numerator := mul (sub x2 x1) log_2 in
  ratio ←! truediv y2 y1;
  denominator ←! math_log ratio;
  truediv numerator denominator.

End Libm.

(** A function that vanishes at 1.0, as the library's [log] does. *)
Definition minus_one (x : spec_float) : spec_float :=
  SFsub Float.prec Float.emax x one.

Definition infinite_or_nan (x : spec_float) : Prop :=
  match x with
  | S754_infinity _ | S754_nan => True
  | _ => False
  end.

Definition finite_not_zero (x : spec_float) : Prop :=
  match x with
  | S754_finite _ _ _ => True
  | _ => False
  end.

End Colony64.

(** ** The colony filters of [main] (colonyscanalyser.py:365-370) *)

Module Main.

Section Filters.

(** The colonies that [main] filters are instances of a [Colony] class
    that is not among the sources.  The filters read three of its
    attributes, taken here as they are read. *)
Context {Colony : Type}.

(** [len(colony.timepoints)]. *)
Variable timepoints_len : Colony → Z.
(** [colony.growth_rate]. *)
Variable growth_rate : Colony → spec_float.
(** [colony.timepoint_first.area]. *)
Variable timepoint_first_area : Colony → Z.

(** [dict(filter(f, d.items()))]. *)
Definition dict_filter (f : Z * Colony → bool) (d : gmap Z Colony)
  : gmap Z Colony :=
  filter (λ elem, f elem = true) d.

(** [lambda elem: len(elem[1].timepoints) > len(time_points) * 0.2]. *)
Definition sufficient_data_points (len_time_points : Z)
  (elem : Z * Colony) : bool :=
  Float.int_gt (timepoints_len elem.2)
    (Float.mul (Float.of_int len_time_points) Float.lit_0_2).

(** [lambda elem: elem[1].growth_rate > 1]. *)
Definition shows_growth (elem : Z * Colony) : bool :=
  Float.gt_int (growth_rate elem.2) 1.

(** [lambda elem: elem[1].timepoint_first.area < 50]. *)
Definition appears_small (elem : Z * Colony) : bool :=
  timepoint_first_area elem.2 <? 50.

(** The three reassignments of [plate_colonies[plate_id]]. *)
Definition filter_colonies (len_time_points : Z)
  (plate_colonies : gmap Z Colony) : gmap Z Colony :=
  let step1 :=
    dict_filter (sufficient_data_points len_time_points) plate_colonies in
  let step2 := dict_filter shows_growth step1 in
  dict_filter appears_small step2.

End Filters.

(** The candidates of the spec's scenario: the number of frames a colony
    is present in, its growth rate and its first area. *)
Record candidate : Type := mk_candidate {
  frames_present : Z;
  rate : spec_float;
  first_area : Z
}.

(** The doubles 0.5, 2.0 and 3.0. *)
Definition lit_0_5 : spec_float := S754_finite false 4503599627370496 (-53).
Definition lit_2_0 : spec_float := S754_finite false 4503599627370496 (-51).
Definition lit_3_0 : spec_float := S754_finite false 6755399441055744 (-51).

Definition colony_A : candidate := mk_candidate 5 lit_2_0 10.
(** The scenario gives no first area for B. *)
Definition colony_B (first_area_B : Z) : candidate :=
  mk_candidate 30 lit_0_5 first_area_B.
Definition colony_C : candidate := mk_candidate 30 lit_3_0 20.

Definition scenario (first_area_B : Z) : gmap Z candidate :=
  {[ 1 := colony_A; 2 := colony_B first_area_B; 3 := colony_C ]}.

Definition filter_candidates (len_time_points : Z)
  (plate_colonies : gmap Z candidate) : gmap Z candidate :=
  filter_colonies frames_present rate first_area len_time_points
    plate_colonies.

(** The threshold test of one number of images, taken at the two counts
    around a fifth of it: false at the lower, true at the upper. *)
Definition threshold_agrees (n : Z) : bool :=
  let x := Float.mul (Float.of_int n) Float.lit_0_2 in
  negb (Float.int_gt (n / 5) x) && Float.int_gt (n / 5 + 1) x.

(** The numbers of images for which the threshold is checked. *)
Definition image_counts : list Z := seqZ 0 1001.

End Main.

(** ** What the spec says of the lattice errors *)

Module LatticeSpec.

Import PlateCollection.

(** A component that is non-positive or not an integer. *)
Definition non_positive_or_non_integer (v : Py.val) : Prop :=
  match v with
  | Py.Int z => z ≤ 0
  | _ => True
  end.

Definition has_bad_component (p : pair) : Prop :=
  non_positive_or_non_integer p.1 ∨ non_positive_or_non_integer p.2.

(** The coordinate exceeds the shape in some component. *)
Definition exceeds (coordinate shape : pair) : Prop :=
  match coordinate, shape with
  | (Py.Int row, Py.Int column), (Py.Int rows, Py.Int columns) =>
      row > rows ∨ column > columns
  | _, _ => False
  end.

(** The failures as the spec lists them for [to_index] and
    [to_coordinate]. *)
Definition errors_as_specified : Prop :=
  (∀ coordinate shape,
      has_bad_component coordinate ∨ has_bad_component shape
      ∨ exceeds coordinate shape →
      raises (to_index coordinate shape) InvalidShapeError)
  ∧ (∀ index shape_rows shape_columns,
      (index - 1) / shape_columns + 1 > shape_rows →
      raises (to_coordinate index (ints shape_rows shape_columns))
        IndexOutOfBoundsError).

(** The round trip through the index and back. *)
Definition round_trip (coordinate shape : pair) : result (Z * Z) :=
  index ←! to_index coordinate shape;
  to_coordinate index shape.

End LatticeSpec.

(** ** What the spec says of degenerate measurements *)

Module MetricSpec.

(** The spec's [InvalidMeasurementError] names no exception of the
    source.  It is read as widely as the source allows: any exception of
    the one class that colony.py raises itself, [ValueError].  What the
    spec sets it against, dividing by zero, is the interpreter's
    [ZeroDivisionError]. *)
Definition InvalidMeasurementError (e : exception) : Prop :=
  ∃ msg, e = ValueError msg.

Definition fails_with_InvalidMeasurementError {A : Type} (r : result A)
  : Prop :=
  ∃ e, InvalidMeasurementError e ∧ raises r e.

(** A window of [__local_doubling_time] that starts at [index]: the two
    times and the two areas it reads. *)
Definition window_reads {A : Type} (index window : Z) (x_pts y_pts : list A)
  (x1 y1 x2 y2 : A) : Prop :=
  Builtins.getitem x_pts index = Ok x1
  ∧ Builtins.getitem y_pts index = Ok y1
  ∧ Builtins.getitem x_pts (index + window) = Ok x2
  ∧ Builtins.getitem y_pts (index + window) = Ok y2.

(** The two failures as the spec states them: a perimeter of zero, and a
    window with the same area at both ends. *)
Definition degenerate_as_specified (libm_log : spec_float → spec_float)
  : Prop :=
  (∀ area perimeter : Colony64.number,
      Colony64.is_zero (Colony64.value perimeter) = true →
      fails_with_InvalidMeasurementError
        (Colony64.__circularity area perimeter))
  ∧ (∀ index window x_pts y_pts x1 x2 y,
      window_reads index window x_pts y_pts x1 y x2 y →
      fails_with_InvalidMeasurementError
        (Colony64.__local_doubling_time libm_log index x_pts y_pts window)).

End MetricSpec.

(** ** Colonies used as inputs *)

Module Inputs.

(** A record of the given area at the given time. *)
Definition record (time_point area : Z) : Colony.Timepoint.t :=
  Colony.Timepoint.mk time_point area (0%R, 0%R) 1%R 1%R.

(** [colony.append_timepoint(time_point, record)], keeping the colony. *)
Definition append (self : Colony.t) (entry : Z * Z) : Colony.t :=
  (Colony.append_timepoint entry.1 (record entry.1 entry.2) self).2.

(** [Colony(1)] after one [append_timepoint] per entry, in the order of
    the list. *)
Definition colony_of (entries : list (Z * Z)) : Colony.t :=
  foldl append (Colony.__init__ 1 None) entries.

(** Eleven records, at times 0 to 10, of areas 2^0 to 2^10. *)
Definition eleven_records : Colony.t :=
  colony_of ((λ t, (t, 2 ^ t)) <$> seqZ 0 11).

(** Two records, the later one appended first. *)
Definition late_then_early : Colony.t :=
  colony_of [(2, 20); (1, 10)].

End Inputs.

(** ** Heaps used to state the effect of [timepoints_from_image] *)

Module HeapSpec.

(** Every reference stored in a dict of colonies names a [Colony] of the
    heap, as every Python reference does. *)
Definition refers_to_colonies (h : Heap.t) (content : gmap Z Heap.ref) : Prop :=
  ∀ label c, content !! label = Some c → is_Some (Heap.colonies h !! c).

(** The labels of the regions of an image. *)
Definition labels (image : list RegionProperties.t) : list Z :=
  RegionProperties.label <$> image.

(** A colony with one more record. *)
Definition appended (self : Colony.t) (time_point : Z)
  (data : Colony.Timepoint.t) : Colony.t :=
  Colony.mk (Colony.id self) (<[time_point := data]> (Colony.__timepoints self)).

(** No append of the call meets a stored timestamp: the regions have
    distinct labels, as [regionprops] yields them, the labels known to the
    dict name distinct colonies, and none of these stores the
    timestamp. *)
Definition appends_are_new (h : Heap.t) (content : gmap Z Heap.ref)
  (image : list RegionProperties.t) (time_point : Z) : Prop :=
  NoDup (labels image)
  ∧ (∀ l1 l2 c, l1 ∈ labels image → l2 ∈ labels image →
       content !! l1 = Some c → content !! l2 = Some c → l1 = l2)
  ∧ (∀ l c self, l ∈ labels image → content !! l = Some c →
       Heap.colonies h !! c = Some self →
       Colony.__timepoints self !! time_point = None).

(** A heap with one dict, at reference 1, that knows label 7 as the
    colony at reference 1; the colony stores a record at time 0. *)
Definition one_colony : Heap.t :=
  Heap.mk {[ 1%positive := {[ 7 := 1%positive ]} ]}
    {[ 1%positive := Colony.mk 7 {[ 0 := Inputs.record 0 3 ]} ]}.

Definition region (label area : Z) : RegionProperties.t :=
  RegionProperties.mk label area (0%R, 0%R) 1%R 1%R.

(** An image with the known label 7 and the new label 8. *)
Definition two_regions : list RegionProperties.t :=
  [region 7 4; region 8 2].

End HeapSpec.

(** ** More heaps used as inputs *)

Module MoreInputs.

(** A heap with one dict, at reference 1, that knows label 7 as the
    colony at reference 1 and label 9 as the colony at reference 2; the
    first stores a record at time 0, the second at times 0 and 5. *)
Definition two_colonies : Heap.t :=
  Heap.mk {[ 1%positive := {[ 7 := 1%positive; 9 := 2%positive ]} ]}
    {[ 1%positive := Colony.mk 7 {[ 0 := Inputs.record 0 3 ]};
       2%positive := Colony.mk 9 {[ 0 := Inputs.record 0 2;
                                    5 := Inputs.record 5 6 ]} ]}.

(** The dict of [two_colonies]. *)
Definition two_labels : gmap Z Heap.ref :=
  {[ 7 := 1%positive; 9 := 2%positive ]}.

End MoreInputs.

(** ** [get_plate_directory] of colonyscanalyser.py *)

Module PlateDirectory.

(** [str(n)] for an int: its decimal digits, after a minus sign when it
    is negative. *)
Definition str (n : Z) : string := pretty n.

(** [sep.join(parts)]. *)
Fixpoint join (sep : string) (parts : list string) : string :=
  match parts with
  | [] => ""
  | [part] => part
  | part :: rest => part +:+ sep +:+ join sep rest
  end.

(** The name [child_path] that [get_plate_directory] builds
    (colonyscanalyser.py:44). *)
Definition child_path (row col : Z) : string :=
  join "_" ["row"; str row; "col"; str col].

Section Paths.

(** Paths, [file_access.create_subdirectory], which is not among the
    sources, and [Path.joinpath]. *)
Context {Path : Type}.
Variable create_subdirectory : Path → string → Path.
Variable joinpath : Path → string → Path.

(** [get_plate_directory] (colonyscanalyser.py:30-48). *)
Definition get_plate_directory (parent_path : Path) (row col : Z)
  (create_dir : bool) : Path :=
  if create_dir
  then create_subdirectory parent_path (child_path row col)
  else joinpath parent_path (child_path row col).

End Paths.

(** A string in which a character does not occur. *)
Fixpoint free_of (c : ascii) (s : string) : Prop :=
  match s with
  | EmptyString => True
  | String a s' => a ≠ c ∧ free_of c s'
  end.

End PlateDirectory.

(** * Properties *)

(** ** Plate lattice *)

Section Lattice.

Import PlateCollection LatticeSpec.

Lemma is_valid_shape_ints (a b : Z) :
  is_valid_shape (ints a b) = true ↔ 1 ≤ a ∧ 1 ≤ b.
Proof.
  unfold is_valid_shape, ints, bad_component, Py.truthy.
  destruct (Z.eqb_spec a 0), (Z.eqb_spec b 0), (Z.ltb_spec a 1),
    (Z.ltb_spec b 1); simpl; split; intros; try discriminate; try lia;
    reflexivity.
Qed.

Lemma is_valid_shape_inv (shape : pair) :
  is_valid_shape shape = true →
  ∃ a b, shape = ints a b ∧ 1 ≤ a ∧ 1 ≤ b.
Proof.
  destruct shape as [[a|x|s|] [b|y|s'|]]; unfold is_valid_shape;
    unfold bad_component; rewrite ?orb_true_r, ?andb_false_r;
    try discriminate.
  intros H. exists a, b. split; [reflexivity|].
  by apply is_valid_shape_ints.
Qed.

Lemma bad_component_spec (v : Py.val) :
  bad_component v = true ↔ non_positive_or_non_integer v.
Proof.
  destruct v; simpl; try tauto. rewrite Z.ltb_lt. lia.
Qed.

(** Validation rejects exactly the tuples with a bad component. *)
Lemma is_valid_shape_false (p : pair) :
  is_valid_shape p = false ↔ has_bad_component p.
Proof.
  destruct p as [a b]. unfold has_bad_component. cbn [fst snd].
  rewrite <- !bad_component_spec. split.
  - intros H. destruct (bad_component a) eqn:Ha; [by left|].
    destruct (bad_component b) eqn:Hb; [by right|]. exfalso.
    destruct a as [a| | |], b as [b| | |]; try discriminate.
    simpl in Ha, Hb. apply Z.ltb_ge in Ha, Hb.
    assert (is_valid_shape (ints a b) = true) as Hv
      by (apply is_valid_shape_ints; lia).
    unfold ints in Hv. rewrite Hv in H. discriminate.
  - unfold is_valid_shape. intros [->| ->];
      rewrite ?orb_true_r, ?andb_false_r; reflexivity.
Qed.

(** No validated call is [Stuck]. *)
Lemma coordinate_to_index_not_stuck (coordinate : pair) :
  coordinate_to_index coordinate ≠ Stuck.
Proof.
  unfold coordinate_to_index.
  destruct (is_valid_shape coordinate) eqn:Hv; simpl; [|discriminate].
  destruct (is_valid_shape_inv _ Hv) as (a & b & -> & _). discriminate.
Qed.

Lemma index_to_coordinate_not_stuck (index : Z) (shape : pair) :
  index_to_coordinate index shape ≠ Stuck.
Proof.
  unfold index_to_coordinate.
  destruct (is_valid_shape shape) eqn:Hv; simpl;
    [|rewrite orb_true_r; discriminate].
  destruct (is_valid_shape_inv _ Hv) as (a & b & -> & _).
  rewrite orb_false_r. destruct (index <? 1); [discriminate|]. simpl.
  destruct (_ || _); discriminate.
Qed.

(** Within the [int64] range the product is the exact one. *)
Lemma np_prod_exact (a b : Z) :
  1 ≤ a → 1 ≤ b → a * b < 2 ^ 63 → np_prod a b = a * b.
Proof.
  intros Ha Hb Hab. unfold np_prod.
  assert (a < 2 ^ 63 ∧ b < 2 ^ 63) as [Ha' Hb'] by nia.
  apply Z.ltb_lt in Ha', Hb'. rewrite Ha', Hb'. simpl andb. cbv iota.
  assert (0 < a * b) by nia.
  rewrite Z.mod_small; lia.
Qed.

Lemma coordinate_to_index_ints (row column : Z) :
  1 ≤ row → 1 ≤ column → row * column < 2 ^ 63 →
  coordinate_to_index (ints row column) = Ok (row * column).
Proof.
  intros Hr Hc Hrc. unfold coordinate_to_index.
  assert (is_valid_shape (ints row column) = true) as ->
      by (apply is_valid_shape_ints; lia).
  simpl. by rewrite np_prod_exact.
Qed.

Lemma index_to_coordinate_ints (index rows columns : Z) :
  1 ≤ index → 1 ≤ rows → 1 ≤ columns →
  index_to_coordinate index (ints rows columns) =
    if (index - 1) / columns + 1 >? rows
    then Raise IndexOutOfBoundsError
    else Ok ((index - 1) / columns + 1, (index - 1) mod columns + 1).
Proof.
  intros Hi Hr Hc. unfold index_to_coordinate.
  assert (is_valid_shape (ints rows columns) = true) as ->
      by (apply is_valid_shape_ints; lia).
  assert ((index <? 1) = false) as -> by (apply Z.ltb_ge; lia).
  simpl.
  assert (((index - 1) mod columns + 1 >? columns) = false) as ->.
  { rewrite Z.gtb_ltb. apply Z.ltb_ge.
    pose proof (Z.mod_pos_bound (index - 1) columns). lia. }
  rewrite orb_false_r. reflexivity.
Qed.

(** X1.  Where the round trip through [coordinate_to_index] gives the
    coordinate back: in the first row and in the last column, and nowhere
    else. *)
Lemma round_trip_first_row_or_last_column (row column rows columns : Z) :
  within row column rows columns → rows * columns < 2 ^ 63 →
  round_trip (ints row column) (ints rows columns) = Ok (row, column)
  ↔ row = 1 ∨ column = columns.
Proof.
  intros [[Hr1 Hr2] [Hc1 Hc2]] Hbound.
  unfold round_trip, to_index, to_coordinate.
  rewrite coordinate_to_index_ints by nia. simpl.
  rewrite index_to_coordinate_ints by nia.
  pose proof (Z.div_mod (row * column - 1) columns ltac:(lia)) as Hdm.
  pose proof (Z.mod_pos_bound (row * column - 1) columns ltac:(lia)) as Hm.
  set (q := (row * column - 1) / columns) in *.
  set (m := (row * column - 1) mod columns) in *.
  split.
  - destruct (q + 1 >? rows); [discriminate|].
    intros [= Hq Hmm]. nia.
  - intros Hcase.
    assert (q = row - 1 ∧ m = column - 1) as [Hq Hmm].
    { destruct Hcase as [->| ->].
      - assert (q = 0) by nia. lia.
      - assert (q = row - 1) by nia. nia. }
    assert ((q + 1 >? rows) = false) as ->
        by (rewrite Z.gtb_ltb; apply Z.ltb_ge; lia).
    f_equal. f_equal; lia.
Qed.

(** C1 (evaluation at the failing input).  In the default 3 x 2 lattice
    the coordinate (2, 1) is valid and within the shape;
    [coordinate_to_index] sends it to 2 * 1 = 2, and index 2 is the
    coordinate (1, 2): the round trip does not give (2, 1) back. *)
Theorem round_trip_of_2_1_in_3_2 :
  within 2 1 3 2
  ∧ round_trip (ints 2 1) (ints 3 2) = Ok (1, 2)
  ∧ round_trip (ints 2 1) (ints 3 2) ≠ Ok (2, 1).
Proof.
  split; [unfold within; lia|].
  assert (round_trip (ints 2 1) (ints 3 2) = Ok (1, 2)) as ->
      by (vm_compute; reflexivity).
  split; [reflexivity|discriminate].
Qed.

(** C2 (evaluation at the failing input).  For the coordinate (2, 1)
    within the shape (3, 2), [coordinate_to_index] returns the product 2,
    where the row-major 1-based index (row - 1) * columns + column is 3. *)
Theorem to_index_of_2_1_is_the_product :
  within 2 1 3 2
  ∧ to_index (ints 2 1) (ints 3 2) = Ok 2
  ∧ row_major_index 2 1 2 = 3.
Proof.
  split; [unfold within; lia|].
  split; vm_compute; reflexivity.
Qed.

(** [coordinate_to_index] is the row-major index exactly in the first row
    and in the last column. *)
Lemma coordinate_to_index_row_major_iff (row column rows columns : Z) :
  within row column rows columns → rows * columns < 2 ^ 63 →
  to_index (ints row column) (ints rows columns)
    = Ok (row_major_index row column columns)
  ↔ row = 1 ∨ column = columns.
Proof.
  intros [[Hr1 Hr2] [Hc1 Hc2]] Hbound. unfold to_index, row_major_index.
  rewrite coordinate_to_index_ints by nia.
  split.
  - intros [= H]. nia.
  - intros [->| ->]; f_equal; lia.
Qed.

(** C9 (counterexample).  The coordinate (5, 5) exceeds the shape (3, 2)
    in both components, and [to_index] returns 25 for it: the listed
    failures do not all occur. *)
Lemma to_index_accepts_a_coordinate_beyond_the_shape :
  exceeds (ints 5 5) (ints 3 2)
  ∧ to_index (ints 5 5) (ints 3 2) = Ok 25
  ∧ ¬ errors_as_specified.
Proof.
  assert (to_index (ints 5 5) (ints 3 2) = Ok 25) as Heval
      by (vm_compute; reflexivity).
  split; [simpl; lia|]. split; [exact Heval|].
  intros [Hto_index _].
  specialize (Hto_index (ints 5 5) (ints 3 2)).
  unfold raises in Hto_index. rewrite Heval in Hto_index.
  discriminate Hto_index. right; right. simpl. lia.
Qed.

(** With a shape that is itself invalid, or an index below 1,
    [index_to_coordinate] raises its [ValueError] before any row is
    computed. *)
Lemma index_to_coordinate_invalid (index : Z) (shape : pair) :
  index < 1 ∨ has_bad_component shape →
  raises (index_to_coordinate index shape) (ValueError index_or_shape_msg).
Proof.
  intros H. unfold raises, index_to_coordinate.
  assert ((index <? 1) || negb (is_valid_shape shape) = true) as ->;
    [|reflexivity].
  destruct H as [H|H].
  - apply Z.ltb_lt in H. rewrite H. reflexivity.
  - apply is_valid_shape_false in H. rewrite H. apply orb_true_r.
Qed.

(** C9 (as amended).  [coordinate_to_index] raises the [ValueError] of an
    invalid coordinate whenever a component of the coordinate is
    non-positive or not an integer.  [index_to_coordinate] raises its
    [ValueError] whenever the index is below 1 or a component of the shape
    is non-positive or not an integer; given an index of at least 1 and a
    shape of positive integers, it raises [IndexError] whenever the row
    ((index - 1) // columns) + 1 exceeds the rows of the shape. *)
Theorem lattice_errors :
  (∀ coordinate,
      has_bad_component coordinate →
      raises (coordinate_to_index coordinate) InvalidShapeError)
  ∧ (∀ index shape,
      index < 1 ∨ has_bad_component shape →
      raises (index_to_coordinate index shape)
        (ValueError index_or_shape_msg))
  ∧ (∀ index shape_rows shape_columns,
      1 ≤ index → 1 ≤ shape_rows → 1 ≤ shape_columns →
      (index - 1) / shape_columns + 1 > shape_rows →
      raises (index_to_coordinate index (ints shape_rows shape_columns))
        IndexOutOfBoundsError).
Proof.
  split; [|split].
  - intros coordinate Hbad. apply is_valid_shape_false in Hbad.
    unfold raises, coordinate_to_index. rewrite Hbad. reflexivity.
  - exact index_to_coordinate_invalid.
  - intros index rows columns Hi Hr Hc Hrow. unfold raises.
    rewrite index_to_coordinate_ints by assumption.
    assert (((index - 1) / columns + 1 >? rows) = true) as ->
        by (rewrite Z.gtb_ltb; apply Z.ltb_lt; lia).
    reflexivity.
Qed.

Lemma lattice_errors_witness :
  raises (coordinate_to_index (Py.Int 0, Py.Float (S754_zero false)))
    InvalidShapeError
  ∧ raises (index_to_coordinate 0 (ints 3 2)) (ValueError index_or_shape_msg)
  ∧ raises (index_to_coordinate 1 (ints 3 0)) (ValueError index_or_shape_msg)
  ∧ raises (index_to_coordinate 7 (ints 3 2)) IndexOutOfBoundsError.
Proof.
  destruct lattice_errors as (Hcoordinate & Hinvalid & Hindex).
  split; [|split; [|split]].
  - apply Hcoordinate. left. simpl. lia.
  - apply Hinvalid. left. lia.
  - apply Hinvalid. right. right. simpl. lia.
  - apply Hindex; try lia. vm_compute. reflexivity.
Defined.

End Lattice.

(** ** Colony *)

Section ColonyFacts.

Import Colony.

(** The [timepoints] property returns the dict as soon as it has a key. *)
Lemma timepoints_nonempty (self : t) (time_point : Z) (tp : Timepoint.t) :
  __timepoints self !! time_point = Some tp →
  timepoints self = Ok (__timepoints self).
Proof.
  intros Hlookup. unfold timepoints.
  pose proof (map_size_ne_0_lookup_2 _ _ (mk_is_Some _ _ Hlookup)).
  assert ((0 <? Z.of_nat (size (__timepoints self))) = true) as ->
      by (apply Z.ltb_lt; lia).
  reflexivity.
Qed.

Lemma timepoints_empty (self : t) :
  __timepoints self = ∅ → timepoints self = Raise EmptyColonyError.
Proof.
  intros Hempty. unfold timepoints. rewrite Hempty, map_size_empty.
  reflexivity.
Qed.

(** C6.  Appending at a timestamp that the colony already stores raises
    the [ValueError] for an existing time point and leaves the colony as
    it was: the record stored at that timestamp and every other record. *)
Theorem append_timepoint_duplicate (self : t) (time_point : Z)
  (stored new : Timepoint.t) :
  __timepoints self !! time_point = Some stored →
  append_timepoint time_point new self = (Raise DuplicateTimepointError, self).
Proof.
  intros Hstored. unfold append_timepoint. rewrite Hstored. reflexivity.
Qed.

Lemma append_timepoint_duplicate_witness :
  append_timepoint 2 (Inputs.record 2 99) Inputs.late_then_early
  = (Raise DuplicateTimepointError, Inputs.late_then_early).
Proof.
  apply (append_timepoint_duplicate _ 2 (Inputs.record 2 20)).
  vm_compute. reflexivity.
Defined.

(** A new timestamp is stored and nothing raises. *)
Lemma append_timepoint_new (self : t) (time_point : Z) (new : Timepoint.t) :
  __timepoints self !! time_point = None →
  append_timepoint time_point new self
  = (Ok (), mk (id self) (<[time_point := new]> (__timepoints self))).
Proof.
  intros Hfree. unfold append_timepoint. rewrite Hfree. reflexivity.
Qed.

(** C8.  On a colony that stores no record, each derived metric raises
    the [ValueError] of the [timepoints] property: [time_of_appearance],
    [center], [growth_rate] (for any formula), [doubling_time] and
    [get_areas]. *)
Theorem metrics_of_empty_colony (self : t)
  (formula : gmap Z Timepoint.t → R) :
  __timepoints self = ∅ →
  raises (time_of_appearance self) EmptyColonyError
  ∧ raises (center self) EmptyColonyError
  ∧ raises (growth_rate formula self) EmptyColonyError
  ∧ raises (doubling_time self) EmptyColonyError
  ∧ raises (get_areas self) EmptyColonyError.
Proof.
  intros Hempty. apply timepoints_empty in Hempty.
  unfold raises, time_of_appearance, center, growth_rate, doubling_time,
    get_areas.
  rewrite Hempty. simpl. repeat split.
Qed.

Lemma metrics_of_empty_colony_witness :
  raises (time_of_appearance (__init__ 1 None)) EmptyColonyError
  ∧ raises (center (__init__ 1 None)) EmptyColonyError
  ∧ raises (growth_rate (λ _, 1%R) (__init__ 1 None)) EmptyColonyError
  ∧ raises (doubling_time (__init__ 1 None)) EmptyColonyError
  ∧ raises (get_areas (__init__ 1 None)) EmptyColonyError.
Proof.
  apply (metrics_of_empty_colony (__init__ 1 None) (λ _, 1%R)).
  reflexivity.
Defined.

(** On a colony that stores a record, the calls of [list] with a [key]
    keyword raise [TypeError]. *)
Lemma get_areas_nonempty (self : t) (time_point : Z) (tp : Timepoint.t) :
  __timepoints self !! time_point = Some tp →
  raises (get_areas self) TypeError.
Proof.
  intros Hlookup. unfold raises, get_areas.
  rewrite (timepoints_nonempty _ _ _ Hlookup). reflexivity.
Qed.

Lemma doubling_time_nonempty (self : t) (time_point : Z) (tp : Timepoint.t) :
  __timepoints self !! time_point = Some tp →
  raises (doubling_time self) TypeError.
Proof.
  intros Hlookup. unfold raises, doubling_time.
  rewrite (timepoints_nonempty _ _ _ Hlookup). reflexivity.
Qed.

(** C7 (evaluation at the failing input).  The colony stores area 10 at
    time 1 and area 20 at time 2, appended once each, the later first;
    [get_areas] raises [TypeError] and returns no sequence. *)
Theorem get_areas_of_late_then_early :
  __timepoints Inputs.late_then_early
  = {[ 1 := Inputs.record 1 10; 2 := Inputs.record 2 20 ]}
  ∧ raises (get_areas Inputs.late_then_early) TypeError.
Proof.
  assert (__timepoints Inputs.late_then_early
          = {[ 1 := Inputs.record 1 10; 2 := Inputs.record 2 20 ]}) as Hstored
      by (vm_compute; reflexivity).
  split; [exact Hstored|].
  apply (get_areas_nonempty _ 1 (Inputs.record 1 10)).
  rewrite Hstored. reflexivity.
Qed.

(** C4 (evaluation at the failing input).  The colony stores eleven
    records, one more than the window of 10; [doubling_time] raises
    [TypeError] and returns no value. *)
Theorem doubling_time_of_eleven_records :
  size (__timepoints Inputs.eleven_records) = 11%nat
  ∧ raises (doubling_time Inputs.eleven_records) TypeError.
Proof.
  split; [vm_compute; reflexivity|].
  apply (doubling_time_nonempty _ 0 (Inputs.record 0 1)).
  vm_compute. reflexivity.
Qed.

(** *** The two metric formulas *)

Lemma truediv_nonzero (a b : R) :
  b ≠ 0%R → Builtins.truediv a b = Ok (a / b)%R.
Proof.
  intros Hb. unfold Builtins.truediv.
  destruct (Req_dec_T b 0) as [Heq|_]; [by destruct Hb|reflexivity].
Qed.

Lemma math_log_positive (x : R) :
  (0 < x)%R → Builtins.math_log x = Ok (ln x).
Proof.
  intros Hx. unfold Builtins.math_log.
  destruct (Rle_dec x 0) as [Hle|_]; [lra|reflexivity].
Qed.

(** The value of one window, when no operation raises. *)
Lemma local_doubling_time_value (index window : Z)
  (x_pts y_pts : list R) (x1 y1 x2 y2 : R) :
  MetricSpec.window_reads index window x_pts y_pts x1 y1 x2 y2 →
  y1 ≠ 0%R → (0 < y2 / y1)%R → y2 ≠ y1 →
  __local_doubling_time index x_pts y_pts window
  = Ok ((x2 - x1) * ln 2 / ln (y2 / y1))%R.
Proof.
  intros (Hx1 & Hy1 & Hx2 & Hy2) Hnz Hpos Hne.
  unfold __local_doubling_time.
  rewrite Hx1, Hy1, Hx2, Hy2. simpl.
  rewrite (truediv_nonzero _ _ Hnz). simpl.
  rewrite math_log_positive by exact Hpos. simpl.
  apply truediv_nonzero. intros Hln.
  rewrite <- ln_1 in Hln. apply ln_inv in Hln; [|exact Hpos|lra].
  apply Hne. apply (Rmult_eq_compat_r y1) in Hln.
  unfold Rdiv in Hln. rewrite Rmult_assoc, Rinv_l in Hln by exact Hnz.
  lra.
Qed.

(** The public [circularity_at_timepoint] does not reach the formula. *)
Lemma circularity_at_timepoint_raises (self : t) (time_point : Z) :
  raises (circularity_at_timepoint self time_point) TypeError.
Proof. reflexivity. Qed.

(** *** The comprehension of [doubling_time] *)

Lemma comprehension_Ok {A B : Type} (f : A → result B) (l : list A)
  (bs : list B) :
  Builtins.comprehension f l = Ok bs →
  length bs = length l
  ∧ ∀ (i : nat) (a : A), l !! i = Some a →
      ∃ b, bs !! i = Some b ∧ f a = Ok b.
Proof.
  revert bs. induction l as [|a l IH]; intros bs; simpl.
  - intros [= <-]. split; [reflexivity|]. intros i a' Hi. discriminate Hi.
  - destruct (f a) as [b| |] eqn:Hfa; simpl; try discriminate.
    destruct (Builtins.comprehension f l) as [bs'| |]; simpl;
      try discriminate.
    intros [= <-]. destruct (IH bs' eq_refl) as [Hlen Hnth].
    split; [simpl; congruence|].
    intros [|i] a' Hi; simpl in *.
    + injection Hi as <-. eauto.
    + eauto.
Qed.

(** Had [list] handed over the times and the areas, the comprehension
    would give one value per window: [len(x_pts) - window] of them, none
    when there are at most [window] points, the i-th computed from the
    points [i] and [i + window]. *)
Lemma local_doubling_times_Ok (x_pts y_pts : list R) (window : Z)
  (values : list R) :
  local_doubling_times x_pts y_pts window = Ok values →
  Z.of_nat (length values) = Z.max 0 (Builtins.len x_pts - window)
  ∧ ∀ (i : nat) (v : R), values !! i = Some v →
      __local_doubling_time (Z.of_nat i) x_pts y_pts window = Ok v.
Proof.
  unfold local_doubling_times, Builtins.range. intros Hc.
  destruct (comprehension_Ok _ _ _ Hc) as [Hlen Hnth].
  rewrite length_seqZ in Hlen. split; [lia|].
  intros i v Hi.
  assert (i < length values)%nat as Hlt by (eapply lookup_lt_Some; eauto).
  destruct (Hnth i (Z.of_nat i)) as (v' & Hv' & Hcall).
  - rewrite lookup_seqZ. split; lia.
  - congruence.
Qed.

(** At most [window] points: no window, an empty list. *)
Lemma local_doubling_times_short (x_pts y_pts : list R) (window : Z) :
  Builtins.len x_pts ≤ window →
  local_doubling_times x_pts y_pts window = Ok [].
Proof.
  intros Hshort. unfold local_doubling_times, Builtins.range, seqZ.
  assert (Z.to_nat (Builtins.len x_pts - window) = 0%nat) as -> by lia.
  reflexivity.
Qed.

(** Eleven points of an area that doubles at each unit of time: one
    window, of doubling time 10 * ln 2 / ln 1024. *)
Lemma local_doubling_times_of_doubling_areas :
  local_doubling_times (IZR <$> seqZ 0 11) ((λ t, IZR (2 ^ t)) <$> seqZ 0 11) 10
  = Ok [((10 - 0) * ln 2 / ln (1024 / 1))%R].
Proof.
  unfold local_doubling_times, Builtins.range.
  assert (Builtins.len (IZR <$> seqZ 0 11) - 10 = 1) as -> by reflexivity.
  change (seqZ 0 1) with [0]. cbn [Builtins.comprehension].
  rewrite (local_doubling_time_value 0 10 _ _ 0 1 10 1024)%R.
  - reflexivity.
  - repeat split; reflexivity.
  - lra.
  - lra.
  - lra.
Qed.

End ColonyFacts.

(** ** The two metric formulas at a division by zero *)

Section DegenerateMetrics.

Import Colony64.

(** A finite number divided by itself is exactly 1.0. *)
Lemma SFdiv_self (s : bool) (m : positive) (e : Z) :
  SFdiv Float.prec Float.emax (S754_finite s m e) (S754_finite s m e) = one.
Proof.
  unfold SFdiv, SFdiv_core_binary, Float.prec, Float.emax.
  rewrite Z.sub_diag.
  replace (Zdigits2 (Z.pos m) + e - (Zdigits2 (Z.pos m) + e)) with 0 by lia.
  change (Z.min (fexp 53 1024 0) 0) with (-53).
  change (0 - -53) with 53.
  cbv beta iota zeta.
  assert (Z.div_eucl (Z.shiftl (Z.pos m) 53) (Z.pos m) = (2 ^ 53, 0)) as ->.
  { rewrite Z.shiftl_mul_pow2 by lia.
    pose proof (Z.div_eucl_eq (Z.pos m * 2 ^ 53) (Z.pos m) ltac:(lia)) as H.
    pose proof (Z.mod_pos_bound (Z.pos m * 2 ^ 53) (Z.pos m) ltac:(lia)) as Hb.
    unfold Z.modulo in Hb.
    destruct (Z.div_eucl (Z.pos m * 2 ^ 53) (Z.pos m)) as [q r].
    cbv beta iota in H. set (p := 2 ^ 53) in *.
    assert (q = p) as -> by nia.
    f_equal. lia. }
  assert (new_location (Z.pos m) 0 = loc_Exact) as ->.
  { unfold new_location. destruct (Z.even (Z.pos m)); reflexivity. }
  rewrite xorb_nilpotent. reflexivity.
Qed.

(** The IEEE 754 quotient by a zero is an infinity or a NaN. *)
Lemma SFdiv_by_zero (x y : spec_float) :
  is_zero y = true → infinite_or_nan (SFdiv Float.prec Float.emax x y).
Proof. destruct y; try discriminate. intros _. destruct x; exact I. Qed.

(** A division by zero, by the class of its operands. *)
Lemma truediv_by_zero (a b : number) :
  is_zero (value b) = true →
  match class_of a, class_of b with
  | Python, Python => raises (truediv a b) ZeroDivisionError
  | _, _ => ∃ v, truediv a b = Ok (mk NumPy v) ∧ infinite_or_nan v
  end.
Proof.
  intros Hzero. unfold raises, truediv.
  pose proof (SFdiv_by_zero (value a) (value b) Hzero) as Hquotient.
  destruct (class_of a), (class_of b); try (eexists; split; [reflexivity|assumption]).
  rewrite Hzero. reflexivity.
Qed.

(** Two numbers of the same finite value other than zero have the ratio
    1.0. *)
Lemma truediv_same_value (a b : number) :
  value a = value b → finite_not_zero (value b) →
  ∃ k, truediv a b = Ok (mk k one).
Proof.
  intros Hsame Hfinite. unfold truediv. rewrite Hsame.
  destruct (value b) as [| | |s m e]; try contradiction.
  rewrite SFdiv_self. simpl.
  destruct (class_of a), (class_of b); eexists; reflexivity.
Qed.

(** C5 (counterexample).  With the perimeter 0 and the area 3, the
    circularity of two Python numbers raises [ZeroDivisionError], which
    is no [ValueError], and the circularity of two NumPy numbers returns
    the positive infinity: neither fails as an invalid measurement. *)
Lemma circularity_has_no_guard :
  raises (__circularity (of_int 3) (of_int 0)) ZeroDivisionError
  ∧ __circularity (mk NumPy (Float.of_int 3)) (mk NumPy (Float.of_int 0))
    = Ok (mk NumPy (S754_infinity false))
  ∧ ¬ ∃ libm_log, MetricSpec.degenerate_as_specified libm_log.
Proof.
  assert (raises (__circularity (of_int 3) (of_int 0)) ZeroDivisionError)
    as Hraise by (vm_compute; reflexivity).
  split; [exact Hraise|]. split; [vm_compute; reflexivity|].
  intros (libm_log & Hcircularity & _).
  destruct (Hcircularity (of_int 3) (of_int 0) eq_refl)
    as (e & [msg ->] & He).
  unfold raises in *. rewrite Hraise in He. discriminate He.
Qed.

(** C5 (as amended).  Neither formula has a guard: each divides by zero,
    and what happens is what the division does.  [__circularity] with a
    perimeter of zero, and [__local_doubling_time] over a window whose two
    areas have the same finite value other than zero (their ratio is 1.0
    and its logarithm 0.0), raise [ZeroDivisionError] when the last
    division is between Python numbers, and return an infinity or a NaN
    of NumPy's when one of its operands is NumPy's: the area or the
    perimeter of the circularity, a time of the doubling time. *)
Theorem degenerate_metrics_divide_by_zero
  (libm_log : spec_float → spec_float) :
  libm_log one = S754_zero false →
  (∀ area perimeter : number,
      is_zero (value perimeter) = true →
      match class_of area, class_of perimeter with
      | Python, Python =>
          raises (__circularity area perimeter) ZeroDivisionError
      | _, _ =>
          ∃ v, __circularity area perimeter = Ok (mk NumPy v)
               ∧ infinite_or_nan v
      end)
  ∧ (∀ index window x_pts y_pts x1 y1 x2 y2,
      MetricSpec.window_reads index window x_pts y_pts x1 y1 x2 y2 →
      value y2 = value y1 → finite_not_zero (value y1) →
      match class_of x1, class_of x2 with
      | Python, Python =>
          raises (__local_doubling_time libm_log index x_pts y_pts window)
            ZeroDivisionError
      | _, _ =>
          ∃ v, __local_doubling_time libm_log index x_pts y_pts window
               = Ok (mk NumPy v)
               ∧ infinite_or_nan v
      end).
Proof.
  intros Hlog. split.
  - intros area perimeter Hzero. unfold __circularity.
    assert (is_zero (value (mul perimeter perimeter)) = true) as Hsquare.
    { unfold mul. cbn [value]. destruct (value perimeter); done. }
    pose proof (truediv_by_zero (mul (mul (of_int 4) pi) area)
                  (mul perimeter perimeter) Hsquare) as Hdiv.
    unfold mul at 1 3 in Hdiv. cbn [class_of of_int pi result_class] in Hdiv.
    destruct (class_of area), (class_of perimeter); exact Hdiv.
  - intros index window x_pts y_pts x1 y1 x2 y2 (Hx1 & Hy1 & Hx2 & Hy2)
      Hsame Hfinite.
    unfold __local_doubling_time. rewrite Hx1, Hy1, Hx2, Hy2.
    cbn [bind math_log two value].
    destruct (truediv_same_value y2 y1 Hsame Hfinite) as [k ->].
    cbn [bind math_log one value]. rewrite Hlog.
    pose proof (truediv_by_zero
                  (mul (sub x2 x1)
                     (mk Python (libm_log (value two))))
                  (mk Python (S754_zero false)) eq_refl) as Hdiv.
    unfold mul at 1, sub at 1 in Hdiv.
    cbn [class_of result_class] in Hdiv.
    destruct (class_of x1), (class_of x2); exact Hdiv.
Qed.

Lemma degenerate_metrics_divide_by_zero_witness :
  minus_one one = S754_zero false
  ∧ raises (__circularity (of_int 3) (of_int 0)) ZeroDivisionError
  ∧ (∃ v, __circularity (mk NumPy (Float.of_int 3)) (mk NumPy (Float.of_int 0))
          = Ok (mk NumPy v)
          ∧ infinite_or_nan v)
  ∧ raises (__local_doubling_time minus_one 0 [of_int 0; of_int 1]
              [of_int 5; of_int 5] 1) ZeroDivisionError.
Proof.
  destruct (degenerate_metrics_divide_by_zero minus_one eq_refl)
    as [Hcircularity Hlocal].
  split; [reflexivity|]. split; [|split].
  - exact (Hcircularity (of_int 3) (of_int 0) eq_refl).
  - exact (Hcircularity (mk NumPy (Float.of_int 3))
             (mk NumPy (Float.of_int 0)) eq_refl).
  - apply (Hlocal 0 1 [of_int 0; of_int 1] [of_int 5; of_int 5]
             (of_int 0) (of_int 5) (of_int 1) (of_int 5)).
    + repeat split; reflexivity.
    + reflexivity.
    + exact I.
Defined.

End DegenerateMetrics.

(** ** The colony filters *)

Section FilterFacts.

Import Main.

Lemma lookup_dict_filter {Colony : Type} (f : Z * Colony → bool)
  (d : gmap Z Colony) (label : Z) (c : Colony) :
  dict_filter f d !! label = Some c ↔ d !! label = Some c ∧ f (label, c) = true.
Proof. unfold dict_filter. by rewrite map_lookup_filter_Some. Qed.

(** C3.  A colony is in the dict that the three filters leave exactly
    when it was in the dict before and passes the three tests: its number
    of time points is greater than the product of the number of images
    and 0.2, its growth rate is greater than 1, and its first area is
    less than 50.  In the scenario of 100 images, of A (5 frames, rate
    2.0, first area 10), B (30 frames, rate 0.5, any first area) and
    C (30 frames, rate 3.0, first area 20) only C is left. *)
Theorem filter_colonies_retains :
  (∀ (Colony : Type) (timepoints_len : Colony → Z)
     (growth_rate : Colony → spec_float) (timepoint_first_area : Colony → Z)
     (len_time_points : Z) (plate_colonies : gmap Z Colony)
     (label : Z) (c : Colony),
      filter_colonies timepoints_len growth_rate timepoint_first_area
        len_time_points plate_colonies !! label = Some c
      ↔ plate_colonies !! label = Some c
        ∧ Float.int_gt (timepoints_len c)
            (Float.mul (Float.of_int len_time_points) Float.lit_0_2) = true
        ∧ Float.gt_int (growth_rate c) 1 = true
        ∧ timepoint_first_area c < 50)
  ∧ (∀ first_area_B : Z,
      filter_candidates 100 (scenario first_area_B) = {[ 3 := colony_C ]}).
Proof.
  split.
  - intros. unfold filter_colonies. rewrite !lookup_dict_filter.
    unfold sufficient_data_points, shows_growth, appears_small.
    cbn [snd]. rewrite Z.ltb_lt. tauto.
  - intros. vm_compute. reflexivity.
Qed.

(** *** The threshold in exact arithmetic *)

(** [k > x] stays true for a larger [k]. *)
Lemma int_gt_mono (x : spec_float) (k k' : Z) :
  k ≤ k' → Float.int_gt k x = true → Float.int_gt k' x = true.
Proof.
  unfold Float.int_gt, Float.compare_int. intros Hle.
  destruct x as [s|s| |s m e].
  - destruct (Z.compare_spec 0 k), (Z.compare_spec 0 k');
      try discriminate; try reflexivity; lia.
  - destruct s; intros; assumption.
  - discriminate.
  - set (v := if s then Z.neg m else Z.pos m).
    assert (0 < 2 ^ Z.max (- e) 0) by (apply Z.pow_pos_nonneg; lia).
    destruct (Z.compare_spec (v * 2 ^ Z.max e 0) (k * 2 ^ Z.max (- e) 0)),
      (Z.compare_spec (v * 2 ^ Z.max e 0) (k' * 2 ^ Z.max (- e) 0));
      try discriminate; try reflexivity; nia.
Qed.

Lemma threshold_agrees_image_counts :
  forallb threshold_agrees image_counts = true.
Proof. vm_compute. reflexivity. Qed.

(** X2.  Up to 1000 images the binary64 product decides as the exact
    one: [k > n * 0.2] exactly when [5 * k > n]. *)
Lemma sufficient_data_points_exact (n k : Z) :
  0 ≤ n ≤ 1000 →
  Float.int_gt k (Float.mul (Float.of_int n) Float.lit_0_2) = true ↔ n < 5 * k.
Proof.
  intros Hn.
  pose proof threshold_agrees_image_counts as Hall.
  rewrite forallb_forall in Hall.
  assert (threshold_agrees n = true) as Hagree.
  { apply Hall. apply list_elem_of_In. unfold image_counts.
    apply elem_of_seqZ. lia. }
  unfold threshold_agrees in Hagree. cbv zeta in Hagree.
  apply andb_true_iff in Hagree as [Hbelow Habove].
  apply negb_true_iff in Hbelow.
  pose proof (Z.div_mod n 5 ltac:(lia)) as Hdm.
  pose proof (Z.mod_pos_bound n 5 ltac:(lia)) as Hm.
  split.
  - intros Hk. destruct (Z_lt_le_dec n (5 * k)) as [Hlt|Hge]; [exact Hlt|].
    assert (k ≤ n / 5) as Hle by lia.
    rewrite (int_gt_mono _ _ _ Hle Hk) in Hbelow. discriminate.
  - intros Hlt. apply (int_gt_mono _ (n / 5 + 1)); [lia|exact Habove].
Qed.

End FilterFacts.

(** ** [timepoints_from_image] *)

Section TimepointsFromImage.

Import HeapSpec.

Implicit Types (h : Heap.t) (content : gmap Z Heap.ref)
  (rp : RegionProperties.t) (image : list RegionProperties.t).

(** The body on a label that the copy knows. *)
Lemma body_known (colonies : Heap.ref) (time_point : Z) rp h content
  (c : Heap.ref) (self : Colony.t) :
  Heap.dicts h !! colonies = Some content →
  content !! RegionProperties.label rp = Some c →
  Heap.colonies h !! c = Some self →
  timepoints_from_image_body colonies time_point rp h =
    match Colony.__timepoints self !! time_point with
    | None =>
        (Ok (),
         Heap.mk (Heap.dicts h)
           (<[c := appended self time_point (timepoint_of_region rp time_point)]>
              (Heap.colonies h)))
    | Some _ => (Raise Colony.DuplicateTimepointError, h)
    end.
Proof.
  intros Hd Hl Hc.
  unfold timepoints_from_image_body, Heap.bind, Heap.dict_contains,
    Heap.dict_getitem, Heap.append_timepoint, Heap.ret.
  rewrite Hd, Hl. rewrite bool_decide_eq_true_2 by eauto. simpl.
  rewrite Hd, Hl, Hc. unfold Colony.append_timepoint. simpl.
  destruct (Colony.__timepoints self !! time_point) eqn:Ht; simpl.
  - rewrite insert_id by assumption. by destruct h.
  - reflexivity.
Qed.

(** The body on a new label. *)
Lemma body_new (colonies : Heap.ref) (time_point : Z) rp h content :
  Heap.dicts h !! colonies = Some content →
  content !! RegionProperties.label rp = None →
  timepoints_from_image_body colonies time_point rp h =
    let c := fresh (dom (Heap.colonies h)) in
    (Ok (),
     Heap.mk
       (<[colonies := <[RegionProperties.label rp := c]> content]> (Heap.dicts h))
       (<[c := appended (Colony.__init__ (RegionProperties.label rp) None)
                 time_point (timepoint_of_region rp time_point)]>
          (Heap.colonies h))).
Proof.
  intros Hd Hl.
  unfold timepoints_from_image_body, Heap.bind, Heap.dict_contains,
    Heap.dict_getitem, Heap.append_timepoint, Heap.ret, Heap.new_colony,
    Heap.dict_setitem.
  rewrite Hd, Hl. rewrite bool_decide_eq_false_2 by (intros [? ?]; done).
  simpl. rewrite Hd. simpl. unfold Colony.append_timepoint.
  repeat (rewrite ?lookup_insert_eq, ?lookup_empty; simpl).
  rewrite insert_insert_eq. reflexivity.
Qed.

Lemma fresh_colony_None h : Heap.colonies h !! fresh (dom (Heap.colonies h)) = None.
Proof. apply not_elem_of_dom, is_fresh. Qed.

(** What one turn of the loop does to the heap. *)
Lemma body_post (colonies : Heap.ref) (time_point : Z) rp h content
  (outcome : result unit) (h' : Heap.t) :
  Heap.dicts h !! colonies = Some content →
  refers_to_colonies h content →
  timepoints_from_image_body colonies time_point rp h = (outcome, h') →
  outcome ≠ Stuck
  ∧ (∀ d, d ≠ colonies → Heap.dicts h' !! d = Heap.dicts h !! d)
  ∧ ∃ content',
      Heap.dicts h' !! colonies = Some content'
      ∧ content ⊆ content'
      ∧ refers_to_colonies h' content'
      ∧ dom content' = {[RegionProperties.label rp]} ∪ dom content
      ∧ (∀ c self, Heap.colonies h !! c = Some self →
          Heap.colonies h' !! c = Some self
          ∨ (Colony.__timepoints self !! time_point = None
             ∧ content !! RegionProperties.label rp = Some c
             ∧ Heap.colonies h' !! c
               = Some (appended self time_point
                         (timepoint_of_region rp time_point))))
      ∧ (outcome = Ok () →
          ∀ c, content !! RegionProperties.label rp = Some c →
          ∃ self, Heap.colonies h !! c = Some self
            ∧ Colony.__timepoints self !! time_point = None
            ∧ Heap.colonies h' !! c
              = Some (appended self time_point
                        (timepoint_of_region rp time_point))).
Proof.
  intros Hd Hrefers Hbody.
  destruct (content !! RegionProperties.label rp) as [c|] eqn:Hlabel.
  - destruct (Hrefers _ _ Hlabel) as [self Hself].
    rewrite (body_known _ _ _ _ _ _ _ Hd Hlabel Hself) in Hbody.
    assert (dom content = {[RegionProperties.label rp]} ∪ dom content) as Hdom.
    { apply elem_of_dom_2 in Hlabel. set_solver. }
    destruct (Colony.__timepoints self !! time_point) as [stored|] eqn:Ht;
      simplify_eq; cbn [Heap.dicts Heap.colonies].
    + split; [discriminate|]. split; [done|].
      exists content. repeat split; try done. intros c' self' Hc'. by left.
    + split; [discriminate|]. split; [done|].
      exists content. unfold refers_to_colonies.
      cbn [Heap.dicts Heap.colonies]. repeat split; try done.
      * intros label c' Hc'. destruct (decide (c' = c)) as [->|Hne].
        -- rewrite lookup_insert_eq. eauto.
        -- rewrite lookup_insert_ne by done. eauto.
      * intros c' self' Hc'. destruct (decide (c' = c)) as [->|Hne].
        -- right. rewrite lookup_insert_eq.
           assert (self' = self) as -> by congruence. done.
        -- left. by rewrite lookup_insert_ne.
      * intros _ c' [= <-]. exists self. by rewrite lookup_insert_eq.
  - rewrite (body_new _ _ _ _ _ Hd Hlabel) in Hbody.
    pose proof (fresh_colony_None h) as Hfresh.
    cbv zeta in Hbody. set (c := fresh (dom (Heap.colonies h))) in *.
    simplify_eq. unfold refers_to_colonies. cbn [Heap.dicts Heap.colonies].
    split; [discriminate|]. split; [intros d Hne; by rewrite lookup_insert_ne|].
    exists (<[RegionProperties.label rp := c]> content).
    rewrite lookup_insert_eq. repeat split; try done.
    + by apply insert_subseteq.
    + intros label c' Hc'.
      destruct (decide (c' = c)) as [->|Hne].
      * rewrite lookup_insert_eq. eauto.
      * rewrite lookup_insert_ne by done.
        apply lookup_insert_Some in Hc' as [[_ ->]|[_ Hc']]; [done|].
        eauto.
    + apply dom_insert_L.
    + intros c' self' Hc'. left.
      rewrite lookup_insert_ne; [done|]. intros ->. congruence.
Qed.

(** What the whole loop does. *)
Lemma loop_post (colonies : Heap.ref) (time_point : Z) image :
  ∀ h content (outcome : result unit) (h' : Heap.t),
  Heap.dicts h !! colonies = Some content →
  refers_to_colonies h content →
  Heap.for_each image (timepoints_from_image_body colonies time_point) h
    = (outcome, h') →
  outcome ≠ Stuck
  ∧ (∀ d, d ≠ colonies → Heap.dicts h' !! d = Heap.dicts h !! d)
  ∧ ∃ content',
      Heap.dicts h' !! colonies = Some content'
      ∧ content ⊆ content'
      ∧ refers_to_colonies h' content'
      ∧ (∀ c self stored, Heap.colonies h !! c = Some self →
          Colony.__timepoints self !! time_point = Some stored →
          Heap.colonies h' !! c = Some self)
      ∧ (outcome = Ok () →
          dom content' = list_to_set (labels image) ∪ dom content
          ∧ ∀ rp c, rp ∈ image →
              content !! RegionProperties.label rp = Some c →
              ∃ self, Heap.colonies h !! c = Some self
                ∧ Colony.__timepoints self !! time_point = None
                ∧ Heap.colonies h' !! c
                  = Some (appended self time_point
                            (timepoint_of_region rp time_point))).
Proof.
  induction image as [|rp image IH]; intros h content outcome h' Hd Hrefers.
  - simpl. unfold Heap.ret. intros [= <- <-].
    split; [discriminate|]. split; [done|].
    exists content. repeat split; try done.
    + unfold labels. simpl. set_solver.
    + intros rp c Hin. by apply elem_of_nil in Hin.
  - simpl. unfold Heap.bind at 1.
    destruct (timepoints_from_image_body colonies time_point rp h)
      as [o1 h1] eqn:Hbody.
    destruct (body_post _ _ _ _ _ _ _ Hd Hrefers Hbody)
      as (Hns & Hframe1 & content1 & Hd1 & Hsub1 & Hrefers1 & Hdom1
          & Hstep & Happ).
    assert (∀ c self stored, Heap.colonies h !! c = Some self →
              Colony.__timepoints self !! time_point = Some stored →
              Heap.colonies h1 !! c = Some self) as Hstable1.
    { intros c self stored Hc Ht.
      destruct (Hstep _ _ Hc) as [?|(Hnone & _)]; [done|congruence]. }
    destruct o1 as [[]|e|]; [|intros [= <- <-]|done].
    + intros Hrest.
      destruct (IH _ _ _ _ Hd1 Hrefers1 Hrest)
        as (Hns' & Hframe' & content' & Hd' & Hsub' & Hrefers' & Hstable'
            & Hok).
      split; [done|]. split.
      { intros d Hne. rewrite Hframe' by done. by apply Hframe1. }
      exists content'. split; [done|]. split; [by etrans|].
      split; [done|]. split.
      { intros c self stored Hc Ht. eapply Hstable'; eauto. }
      intros ->. destruct (Hok eq_refl) as [Hdom' Happ'].
      split.
      { rewrite Hdom', Hdom1. unfold labels. simpl. set_solver. }
      intros rp' c Hin Hc. apply elem_of_cons in Hin as [->|Hin].
      * destruct (Happ eq_refl _ Hc) as (self & Hself & Ht & Hself1).
        exists self. repeat split; try done.
        eapply Hstable'; [exact Hself1|]. unfold appended. simpl.
        apply lookup_insert_eq.
      * assert (content1 !! RegionProperties.label rp' = Some c) as Hc1
            by (eapply lookup_weaken; eauto).
        destruct (Happ' _ _ Hin Hc1) as (self1 & Hself1 & Ht1 & Hfinal).
        destruct (Hrefers _ _ Hc) as [self Hself].
        destruct (Hstep _ _ Hself) as [Hsame|(_ & _ & Hchanged)].
        -- assert (self1 = self) as -> by congruence. eauto.
        -- rewrite Hchanged in Hself1. injection Hself1 as <-.
           unfold appended in Ht1. simpl in Ht1.
           by rewrite lookup_insert_eq in Ht1.
    + split; [discriminate|]. split; [done|].
      exists content1. repeat split; try done.
Qed.

(** The loop returns when no append meets a stored timestamp. *)
Lemma loop_returns (colonies : Heap.ref) (time_point : Z) image :
  ∀ h content,
  Heap.dicts h !! colonies = Some content →
  refers_to_colonies h content →
  appends_are_new h content image time_point →
  ∃ h', Heap.for_each image (timepoints_from_image_body colonies time_point) h
        = (Ok (), h').
Proof.
  induction image as [|rp image IH]; intros h content Hd Hrefers Hnew.
  - simpl. unfold Heap.ret. eauto.
  - destruct Hnew as (Hnodup & Hinj & Hfree).
    unfold labels in Hnodup, Hinj, Hfree. rewrite fmap_cons in *.
    apply NoDup_cons in Hnodup as [Hnotin Hnodup].
    simpl. unfold Heap.bind at 1.
    destruct (timepoints_from_image_body colonies time_point rp h)
      as [o1 h1] eqn:Hbody.
    destruct (body_post _ _ _ _ _ _ _ Hd Hrefers Hbody)
      as (_ & _ & content1 & Hd1 & Hsub1 & Hrefers1 & Hdom1 & Hstep & _).
    assert (o1 = Ok ()) as ->.
    { destruct (content !! RegionProperties.label rp) as [c|] eqn:Hlabel.
      - destruct (Hrefers _ _ Hlabel) as [self Hself].
        rewrite (body_known _ _ _ _ _ _ _ Hd Hlabel Hself) in Hbody.
        rewrite (Hfree _ _ _ (list_elem_of_here _ _) Hlabel Hself) in Hbody.
        congruence.
      - rewrite (body_new _ _ _ _ _ Hd Hlabel) in Hbody. simpl in Hbody.
        congruence. }
    apply (IH h1 content1 Hd1 Hrefers1).
    assert (∀ l c, l ∈ RegionProperties.label <$> image →
              content1 !! l = Some c → content !! l = Some c) as Hback.
    { intros l c Hl Hc.
      assert (l ∈ dom content1) as Hin by (by eapply elem_of_dom_2).
      rewrite Hdom1 in Hin. apply elem_of_union in Hin as [Hin|Hin].
      - exfalso. set_solver.
      - apply elem_of_dom in Hin. destruct Hin as [c' Hc'].
        rewrite (lookup_weaken _ _ _ _ Hc' Hsub1) in Hc. congruence. }
    unfold appends_are_new, labels. split; [done|]. split.
    + intros l1 l2 c Hl1 Hl2 Hc1 Hc2.
      apply (Hinj l1 l2 c); try (by apply list_elem_of_further); eauto.
    + intros l c self1 Hl Hc Hself1.
      pose proof (Hback _ _ Hl Hc) as Hc0.
      destruct (Hrefers _ _ Hc0) as [self Hself].
      destruct (Hstep _ _ Hself) as [Hsame|(_ & Hrp & _)].
      * assert (self1 = self) as -> by congruence.
        eapply Hfree; [|exact Hc0|exact Hself]. by apply list_elem_of_further.
      * exfalso. apply Hnotin.
        rewrite (Hinj (RegionProperties.label rp) l c); try done.
        -- apply list_elem_of_here.
        -- by apply list_elem_of_further.
Qed.

(** C10.  [timepoints_from_image], called with the reference of a dict of
    colonies, leaves that dict as it was, whether it returns or raises:
    the same labels with the same colonies.  What it returns is the
    reference of another dict, new in the heap, which holds every entry of
    the caller's dict, with the same [Colony] objects, and whose labels
    are those of the caller's dict and of the image.  Each colony that the
    caller's dict knows under the label of a region has the record of that
    region stored at the new timestamp, in the object itself.  The call
    returns when no append meets a stored timestamp. *)
Theorem timepoints_from_image_keeps_callers_dict (h : Heap.t)
  (colonies_dict : Heap.ref) (content : gmap Z Heap.ref) image
  (time_point : Z) (outcome : result Heap.ref) (h' : Heap.t) :
  Heap.dicts h !! colonies_dict = Some content →
  refers_to_colonies h content →
  timepoints_from_image colonies_dict image time_point h = (outcome, h') →
  Heap.dicts h' !! colonies_dict = Some content
  ∧ outcome ≠ Stuck
  ∧ (appends_are_new h content image time_point → returns outcome)
  ∧ ∀ colonies, outcome = Ok colonies →
      colonies ≠ colonies_dict
      ∧ Heap.dicts h !! colonies = None
      ∧ ∃ content',
          Heap.dicts h' !! colonies = Some content'
          ∧ content ⊆ content'
          ∧ dom content' = list_to_set (labels image) ∪ dom content
          ∧ ∀ rp c, rp ∈ image →
              content !! RegionProperties.label rp = Some c →
              ∃ self, Heap.colonies h !! c = Some self
                ∧ Colony.__timepoints self !! time_point = None
                ∧ Heap.colonies h' !! c
                  = Some (appended self time_point
                            (timepoint_of_region rp time_point)).
Proof.
  intros Hd Hrefers. unfold timepoints_from_image, Heap.bind, Heap.dict_copy.
  rewrite Hd.
  pose proof (is_fresh (dom (Heap.dicts h))) as Hfresh.
  set (colonies := fresh (dom (Heap.dicts h))) in *.
  apply not_elem_of_dom in Hfresh.
  assert (colonies ≠ colonies_dict) as Hne by (intros <-; congruence).
  set (h1 := Heap.mk (<[colonies := content]> (Heap.dicts h)) (Heap.colonies h)).
  assert (Heap.dicts h1 !! colonies = Some content) as Hd1
      by apply lookup_insert_eq.
  assert (refers_to_colonies h1 content) as Hrefers1 by exact Hrefers.
  destruct (Heap.for_each image
              (timepoints_from_image_body colonies time_point) h1)
    as [o2 h2] eqn:Hloop.
  destruct (loop_post _ _ _ _ _ _ _ Hd1 Hrefers1 Hloop)
    as (Hns & Hframe & content' & Hd' & Hsub & _ & _ & Hok).
  assert (Heap.dicts h2 !! colonies_dict = Some content) as Hcaller.
  { rewrite Hframe by done. unfold h1. simpl.
    by rewrite lookup_insert_ne. }
  destruct o2 as [[]|e|]; [| |done]; unfold Heap.ret; intros [= <- <-].
  - split; [done|]. split; [discriminate|]. split; [intros _; by eexists|].
    intros ? [= <-]. split; [done|]. split; [done|].
    destruct (Hok eq_refl) as [Hdom Happ].
    exists content'. repeat split; try done.
  - split; [done|]. split; [discriminate|]. split; [|discriminate].
    intros Hnew.
    destruct (loop_returns colonies time_point image h1 content Hd1 Hrefers1)
      as [h3 Hreturns]; [exact Hnew|].
    rewrite Hreturns in Hloop. discriminate Hloop.
Qed.

Lemma timepoints_from_image_keeps_callers_dict_witness :
  Heap.dicts
    (timepoints_from_image 1%positive two_regions 5 one_colony).2 !! 1%positive
  = Some {[ 7 := 1%positive ]}
  ∧ returns (timepoints_from_image 1%positive two_regions 5 one_colony).1.
Proof.
  destruct (timepoints_from_image 1%positive two_regions 5 one_colony)
    as [outcome h'] eqn:Hcall.
  destruct (timepoints_from_image_keeps_callers_dict one_colony 1%positive
              {[ 7 := 1%positive ]} two_regions 5 outcome h')
    as (Hcaller & _ & Hreturns & _).
  - reflexivity.
  - intros label c Hc. apply lookup_singleton_Some in Hc as [<- <-].
    vm_compute. eauto.
  - exact Hcall.
  - split; [exact Hcaller|]. apply Hreturns.
    unfold appends_are_new. split; [|split].
    + vm_compute. repeat constructor; set_solver.
    + intros l1 l2 c _ _ H1 H2.
      apply lookup_singleton_Some in H1 as [<- _].
      apply lookup_singleton_Some in H2 as [<- _]. reflexivity.
    + intros l c self _ Hc Hself.
      apply lookup_singleton_Some in Hc as [<- <-].
      vm_compute in Hself. injection Hself as <-. vm_compute. reflexivity.
Defined.

End TimepointsFromImage.

(** ** More on the plate lattice *)

Section LatticeMore.

Import PlateCollection LatticeSpec.

Lemma index_to_coordinate_in_range (index rows columns : Z) :
  1 ≤ rows → 1 ≤ columns → 1 ≤ index ≤ rows * columns →
  ∃ row column,
    index_to_coordinate index (ints rows columns) = Ok (row, column)
    ∧ within row column rows columns
    ∧ row_major_index row column columns = index.
Proof.
  intros Hr Hc Hi. rewrite index_to_coordinate_ints by lia.
  pose proof (Z.div_mod (index - 1) columns ltac:(lia)) as Hdm.
  pose proof (Z.mod_pos_bound (index - 1) columns ltac:(lia)) as Hm.
  set (q := (index - 1) / columns) in *.
  set (m := (index - 1) mod columns) in *.
  assert (0 ≤ q < rows) as Hq by nia.
  assert ((q + 1 >? rows) = false) as ->
      by (rewrite Z.gtb_ltb; apply Z.ltb_ge; lia).
  exists (q + 1), (m + 1). split; [reflexivity|].
  unfold within, row_major_index. lia.
Qed.

(** X3.  For a shape of positive integers and an index from 1 to
    rows * columns, [index_to_coordinate] returns a coordinate within the
    shape whose row-major index is the index given. *)
Theorem index_to_coordinate_row_major (index rows columns : Z) :
  1 ≤ rows → 1 ≤ columns → 1 ≤ index ≤ rows * columns →
  ∃ row column,
    index_to_coordinate index (ints rows columns) = Ok (row, column)
    ∧ within row column rows columns
    ∧ row_major_index row column columns = index.
Proof. apply index_to_coordinate_in_range. Qed.

Lemma index_to_coordinate_row_major_witness :
  ∃ row column,
    index_to_coordinate 4 (ints 3 2) = Ok (row, column)
    ∧ within row column 3 2
    ∧ row_major_index row column 2 = 4.
Proof. apply index_to_coordinate_row_major; lia. Defined.

(** X4.  [coordinate_to_index] of the shape itself, which
    [plates_from_image] takes as the number of plates, is rows * columns,
    and [index_to_coordinate] returns exactly for the indices from 1 to
    that number: below 1 it raises [ValueError], above it [IndexError]. *)
Theorem index_to_coordinate_accepts (rows columns : Z) :
  1 ≤ rows → 1 ≤ columns → rows * columns < 2 ^ 63 →
  ∃ count,
    coordinate_to_index (ints rows columns) = Ok count
    ∧ ∀ index,
        (returns (index_to_coordinate index (ints rows columns))
         ↔ 1 ≤ index ≤ count)
        ∧ (index < 1 →
           raises (index_to_coordinate index (ints rows columns))
             (ValueError index_or_shape_msg))
        ∧ (count < index →
           raises (index_to_coordinate index (ints rows columns))
             IndexOutOfBoundsError).
Proof.
  intros Hr Hc Hbound. exists (rows * columns).
  split; [by apply coordinate_to_index_ints|].
  intros index.
  assert (index < 1 →
          raises (index_to_coordinate index (ints rows columns))
            (ValueError index_or_shape_msg)) as Hlow.
  { intros Hlt. unfold raises, index_to_coordinate.
    apply Z.ltb_lt in Hlt. rewrite Hlt. reflexivity. }
  assert (rows * columns < index →
          raises (index_to_coordinate index (ints rows columns))
            IndexOutOfBoundsError) as Hhigh.
  { intros Hgt. unfold raises. rewrite index_to_coordinate_ints by nia.
    pose proof (Z.div_mod (index - 1) columns ltac:(lia)) as Hdm.
    pose proof (Z.mod_pos_bound (index - 1) columns ltac:(lia)) as Hm.
    assert (((index - 1) / columns + 1 >? rows) = true) as ->;
      [|reflexivity].
    rewrite Z.gtb_ltb. apply Z.ltb_lt. nia. }
  split; [|split; assumption].
  split.
  - intros [rc Hrc].
    destruct (Z_lt_le_dec index 1) as [Hlt|Hge].
    { rewrite (Hlow Hlt) in Hrc. discriminate. }
    destruct (Z_lt_le_dec (rows * columns) index) as [Hgt|Hle]; [|lia].
    rewrite (Hhigh Hgt) in Hrc. discriminate.
  - intros Hin.
    destruct (index_to_coordinate_in_range index rows columns)
      as (row & column & Hrc & _); try lia.
    by eexists.
Qed.

Lemma index_to_coordinate_accepts_witness :
  ∃ count,
    coordinate_to_index (ints 3 2) = Ok count
    ∧ ∀ index,
        (returns (index_to_coordinate index (ints 3 2)) ↔ 1 ≤ index ≤ count)
        ∧ (index < 1 →
           raises (index_to_coordinate index (ints 3 2))
             (ValueError index_or_shape_msg))
        ∧ (count < index →
           raises (index_to_coordinate index (ints 3 2))
             IndexOutOfBoundsError).
Proof. apply index_to_coordinate_accepts; lia. Defined.

(** X5.  [index_to_coordinate] undoes the row-major index: for a
    coordinate within a shape, the index (row - 1) * columns + column is
    sent back to (row, column). *)
Theorem index_to_coordinate_of_row_major (row column rows columns : Z) :
  within row column rows columns →
  index_to_coordinate (row_major_index row column columns) (ints rows columns)
  = Ok (row, column).
Proof.
  intros [[Hr1 Hr2] [Hc1 Hc2]]. unfold row_major_index.
  rewrite index_to_coordinate_ints by nia.
  pose proof (Z.div_mod ((row - 1) * columns + column - 1) columns
                ltac:(lia)) as Hdm.
  pose proof (Z.mod_pos_bound ((row - 1) * columns + column - 1) columns
                ltac:(lia)) as Hm.
  set (q := ((row - 1) * columns + column - 1) / columns) in *.
  set (m := ((row - 1) * columns + column - 1) mod columns) in *.
  assert (q = row - 1) as Hq by nia.
  assert (m = column - 1) as Hmm by nia.
  assert ((q + 1 >? rows) = false) as ->
      by (rewrite Z.gtb_ltb; apply Z.ltb_ge; lia).
  f_equal. f_equal; lia.
Qed.

Lemma index_to_coordinate_of_row_major_witness :
  index_to_coordinate (row_major_index 2 1 2) (ints 3 2) = Ok (2, 1).
Proof. apply index_to_coordinate_of_row_major. unfold within. lia. Defined.

(** X6.  The validation shared by the shape setter and the two lattice
    functions accepts a pair exactly when both components are integers of
    at least 1. *)
Theorem is_valid_shape_iff (shape : pair) :
  is_valid_shape shape = true
  ↔ ∃ a b, shape = ints a b ∧ 1 ≤ a ∧ 1 ≤ b.
Proof.
  split.
  - apply is_valid_shape_inv.
  - intros (a & b & -> & Ha & Hb). by apply is_valid_shape_ints.
Qed.

(** The binary64 product does not depend on the order of its factors. *)
Lemma SFmul_comm (x y : spec_float) : SFmul 53 1024 x y = SFmul 53 1024 y x.
Proof.
  destruct x as [sx|sx| |sx mx ex], y as [sy|sy| |sy my ey]; simpl;
    rewrite ?(xorb_comm sx sy); try reflexivity.
  rewrite (Pos.mul_comm mx my), (Z.add_comm ex ey). reflexivity.
Qed.

(** X7.  [coordinate_to_index] does not tell a coordinate from its
    transpose: (row, column) and (column, row) get the same outcome,
    index or exception. *)
Theorem coordinate_to_index_transpose (a b : Py.val) :
  coordinate_to_index (a, b) = coordinate_to_index (b, a).
Proof.
  unfold coordinate_to_index.
  assert (is_valid_shape (a, b) = is_valid_shape (b, a)) as ->.
  { unfold is_valid_shape.
    rewrite (andb_comm (Py.truthy a)), (orb_comm (bad_component a)).
    reflexivity. }
  destruct (is_valid_shape (b, a)) eqn:Hv; simpl; [|reflexivity].
  destruct (is_valid_shape_inv _ Hv) as (x & y & [= -> ->] & _).
  unfold np_prod. rewrite (Z.mul_comm y x).
  rewrite (andb_comm (y <? 2 ^ 63)), (orb_comm (2 ^ 64 <=? y)),
    (andb_comm (2 ^ 63 <=? y)), (SFmul_comm (to_float64 y)).
  reflexivity.
Qed.

Lemma round_trip_first_row_or_last_column_witness :
  round_trip (ints 3 2) (ints 3 2) = Ok (3, 2) ↔ 3 = 1 ∨ 2 = 2.
Proof.
  apply round_trip_first_row_or_last_column.
  - unfold within. lia.
  - lia.
Defined.

End LatticeMore.

(** ** More on [Colony] *)

Section ColonyMore.

Import Colony.

(** X8.  [append_timepoint] at a timestamp that the colony does not store
    returns, and afterwards the [timepoints] property returns a dict that
    holds the record at that timestamp, holds at every other timestamp
    what it held before, and has one more entry; the id is kept. *)
Theorem append_timepoint_stores (self : t) (time_point : Z)
  (data : Timepoint.t) :
  __timepoints self !! time_point = None →
  ∃ self',
    append_timepoint time_point data self = (Ok (), self')
    ∧ timepoints self' = Ok (__timepoints self')
    ∧ __timepoints self' !! time_point = Some data
    ∧ (∀ other, other ≠ time_point →
         __timepoints self' !! other = __timepoints self !! other)
    ∧ size (__timepoints self') = S (size (__timepoints self))
    ∧ id self' = id self.
Proof.
  intros Hfree. eexists. split; [by apply append_timepoint_new|].
  split; [|split; [|split; [|split]]]; cbn [__timepoints id].
  - apply (timepoints_nonempty (mk _ _) time_point data).
    cbn [__timepoints]. apply lookup_insert_eq.
  - apply lookup_insert_eq.
  - intros other Hne. by apply lookup_insert_ne.
  - by apply map_size_insert_None.
  - reflexivity.
Qed.

Lemma append_timepoint_stores_witness :
  ∃ self',
    append_timepoint 3 (Inputs.record 3 30) Inputs.late_then_early
      = (Ok (), self')
    ∧ timepoints self' = Ok (__timepoints self')
    ∧ __timepoints self' !! 3 = Some (Inputs.record 3 30)
    ∧ (∀ other, other ≠ 3 →
         __timepoints self' !! other
         = __timepoints Inputs.late_then_early !! other)
    ∧ size (__timepoints self')
      = S (size (__timepoints Inputs.late_then_early))
    ∧ id self' = id Inputs.late_then_early.
Proof. apply append_timepoint_stores. vm_compute. reflexivity. Defined.

(** A sequence of appends at new, pairwise distinct timestamps. *)
Lemma append_timepoints_new (entries : list (Z * Timepoint.t)) :
  ∀ self,
  NoDup entries.*1 →
  (∀ time_point, time_point ∈ entries.*1 →
     __timepoints self !! time_point = None) →
  append_timepoints entries self
  = (Ok (), mk (id self) (list_to_map entries ∪ __timepoints self)).
Proof.
  induction entries as [|[time_point data] entries IH]; intros self Hnodup Hnew.
  - simpl. rewrite (left_id_L ∅ (∪)). by destruct self.
  - rewrite fmap_cons in Hnodup, Hnew. simpl in Hnodup, Hnew.
    apply NoDup_cons in Hnodup as [Hnotin Hnodup].
    simpl. rewrite append_timepoint_new by (apply Hnew; left).
    rewrite IH; [|done|]; simpl.
    + f_equal. f_equal. rewrite <- insert_union_l.
      symmetry. apply insert_union_r.
      by apply not_elem_of_list_to_map.
    + intros other Hother. rewrite lookup_insert_ne.
      * apply Hnew. by right.
      * intros ->. done.
Qed.

(** A sequence of appends that meets a timestamp again. *)
Lemma append_timepoints_repeated (entries : list (Z * Timepoint.t)) :
  ∀ self,
  ¬ (NoDup entries.*1
     ∧ ∀ time_point, time_point ∈ entries.*1 →
         __timepoints self !! time_point = None) →
  (append_timepoints entries self).1 = Raise DuplicateTimepointError.
Proof.
  induction entries as [|[time_point data] entries IH]; intros self Hnot.
  - destruct Hnot. split; [constructor|]. intros ? Hin.
    by apply elem_of_nil in Hin.
  - simpl. destruct (__timepoints self !! time_point) as [stored|] eqn:Hstored.
    + unfold append_timepoint. rewrite Hstored. reflexivity.
    + rewrite append_timepoint_new by done. apply IH. simpl.
      intros [Hnodup Hnew]. apply Hnot. rewrite fmap_cons. simpl. split.
      * apply NoDup_cons. split; [|done]. intros Hin.
        specialize (Hnew _ Hin). by rewrite lookup_insert_eq in Hnew.
      * intros other [->|Hother]%elem_of_cons; [done|].
        specialize (Hnew _ Hother).
        destruct (decide (other = time_point)) as [->|Hne].
        -- by rewrite lookup_insert_eq in Hnew.
        -- by rewrite lookup_insert_ne in Hnew.
Qed.

(** X9.  Appends to a new colony, one after the other, all return exactly
    when the timestamps are pairwise distinct, and the colony then stores
    each record at its timestamp; otherwise the sequence ends with the
    [ValueError] of an existing time point. *)
Theorem append_timepoints_to_new_colony (colony_id : Z)
  (entries : list (Z * Timepoint.t)) :
  (NoDup entries.*1 →
   append_timepoints entries (__init__ colony_id None)
   = (Ok (), mk colony_id (list_to_map entries)))
  ∧ (¬ NoDup entries.*1 →
     (append_timepoints entries (__init__ colony_id None)).1
     = Raise DuplicateTimepointError).
Proof.
  split.
  - intros Hnodup. rewrite append_timepoints_new; [|done|done].
    simpl. by rewrite (right_id_L ∅ (∪)).
  - intros Hdup. apply append_timepoints_repeated. intros [Hnodup _]. done.
Qed.

Lemma append_timepoints_to_new_colony_witness :
  (append_timepoints [(2, Inputs.record 2 20); (1, Inputs.record 1 10)]
     (__init__ 1 None)
   = (Ok (), mk 1 (list_to_map
                     [(2, Inputs.record 2 20); (1, Inputs.record 1 10)])))
  ∧ (append_timepoints [(2, Inputs.record 2 20); (2, Inputs.record 2 21)]
       (__init__ 1 None)).1
    = Raise DuplicateTimepointError.
Proof.
  split.
  - apply (append_timepoints_to_new_colony 1).
    simpl. repeat constructor; set_solver.
  - apply (append_timepoints_to_new_colony 1).
    simpl. intros Hnodup. apply NoDup_cons in Hnodup as [Hnotin _].
    apply Hnotin. left.
Defined.

(** X10.  On a colony that stores a record none of the four metrics
    returns: [time_of_appearance] raises [AttributeError], and [center],
    [doubling_time] and [get_areas] raise [TypeError]. *)
Theorem metrics_of_nonempty_colony (self : t) :
  __timepoints self ≠ ∅ →
  raises (time_of_appearance self) AttributeError
  ∧ raises (center self) TypeError
  ∧ raises (doubling_time self) TypeError
  ∧ raises (get_areas self) TypeError.
Proof.
  intros Hne.
  destruct (map_choose _ Hne) as (time_point & tp & Hlookup).
  pose proof (timepoints_nonempty _ _ _ Hlookup) as Hprop.
  unfold raises, time_of_appearance, center, doubling_time, get_areas.
  rewrite Hprop. simpl. split; [|done].
  destruct (map_to_list (__timepoints self)) as [|[k v] l] eqn:Hlist.
  - apply map_to_list_empty_iff in Hlist. done.
  - reflexivity.
Qed.

Lemma metrics_of_nonempty_colony_witness :
  raises (time_of_appearance Inputs.late_then_early) AttributeError
  ∧ raises (center Inputs.late_then_early) TypeError
  ∧ raises (doubling_time Inputs.late_then_early) TypeError
  ∧ raises (get_areas Inputs.late_then_early) TypeError.
Proof.
  apply metrics_of_nonempty_colony. intros Hempty.
  assert (__timepoints Inputs.late_then_early !! 1 = None) as Hnone
      by (rewrite Hempty; apply lookup_empty).
  vm_compute in Hnone. discriminate Hnone.
Defined.

(** One call changes nothing but, for an [append_timepoint] at a
    timestamp that is not stored, the entry at that timestamp. *)
Lemma mutate_effect (call : mutation) (self : t) :
  id (mutate call self).2 = id self
  ∧ (__timepoints (mutate call self).2 = __timepoints self
     ∨ ∃ time_point tp,
         call = Append time_point tp
         ∧ __timepoints self !! time_point = None
         ∧ __timepoints (mutate call self).2
           = <[time_point := tp]> (__timepoints self)).
Proof.
  destruct call as [time_point tp|time_point tp|time_point]; simpl;
    try (split; [reflexivity|left; reflexivity]).
  unfold append_timepoint.
  destruct (__timepoints self !! time_point) eqn:Hlookup; simpl.
  - split; [reflexivity|left; reflexivity].
  - split; [reflexivity|right]. by exists time_point, tp.
Qed.

(** X11.  No sequence of calls of [append_timepoint], [update_timepoint]
    and [remove_timepoint], whatever each call returns or raises, changes
    or removes a record that the colony stores, or its id: every record
    stored at the start is stored unchanged at the end, and a record
    stored at the end was stored at the start or is the argument of an
    [append_timepoint] of the sequence. *)
Theorem stored_records_persist (calls : list mutation) (self : t) :
  id (mutate_all calls self) = id self
  ∧ (∀ time_point tp,
      __timepoints self !! time_point = Some tp →
      __timepoints (mutate_all calls self) !! time_point = Some tp)
  ∧ (∀ time_point tp,
      __timepoints (mutate_all calls self) !! time_point = Some tp →
      __timepoints self !! time_point = Some tp
      ∨ Append time_point tp ∈ calls).
Proof.
  revert self. induction calls as [|call calls IH]; intros self.
  - split; [reflexivity|]. split; [done|]. intros ? ? H. by left.
  - change (mutate_all (call :: calls) self)
      with (mutate_all calls (mutate call self).2).
    destruct (IH (mutate call self).2) as (Hid & Hkept & Hfrom).
    destruct (mutate_effect call self) as [Hid' Hstep].
    split; [congruence|]. split.
    + intros time_point tp Hstored. apply Hkept.
      destruct Hstep as [->|(t' & tp' & _ & Hnew & ->)]; [exact Hstored|].
      rewrite lookup_insert_ne; [exact Hstored|congruence].
    + intros time_point tp Hend.
      destruct (Hfrom _ _ Hend) as [Hmid|Hin]; [|right; by right].
      destruct Hstep as [Hsame|(t' & tp' & -> & Hnew & Hins)].
      * left. by rewrite <- Hsame.
      * rewrite Hins in Hmid.
        destruct (decide (t' = time_point)) as [->|Hne].
        -- rewrite lookup_insert_eq in Hmid. injection Hmid as ->.
           right. by left.
        -- rewrite lookup_insert_ne in Hmid by exact Hne. by left.
Qed.

Lemma stored_records_persist_witness :
  __timepoints
    (mutate_all [Remove 2; Update 2 (Inputs.record 2 30);
                 Append 2 (Inputs.record 2 30); Append 3 (Inputs.record 3 40)]
       Inputs.late_then_early) !! 2
  = Some (Inputs.record 2 20).
Proof.
  apply stored_records_persist. vm_compute. reflexivity.
Defined.

End ColonyMore.

(** ** More on the two metric formulas *)

Section FormulaMore.

Import Colony.

(** Reading a list at an index that is not negative. *)
Lemma getitem_nonneg {A : Type} (l : list A) (i : Z) :
  0 ≤ i →
  Builtins.getitem l i
  = match l !! Z.to_nat i with
    | Some a => Ok a
    | None => Raise (IndexError "list index out of range")
    end.
Proof.
  intros Hi. unfold Builtins.getitem.
  assert ((i <? 0) = false) as -> by (apply Z.ltb_ge; lia).
  rewrite (proj2 (Z.ltb_ge i 0)) by lia. reflexivity.
Qed.

(** X15.  A window that ends beyond the last point raises [IndexError]:
    for an index and a window that are not negative and reach the length
    of the list of times or further. *)
Theorem local_doubling_time_out_of_range (index window : Z)
  (x_pts y_pts : list R) :
  0 ≤ index → 0 ≤ window → Builtins.len x_pts ≤ index + window →
  raises (__local_doubling_time index x_pts y_pts window)
    (IndexError "list index out of range").
Proof.
  intros Hi Hw Hlen. unfold raises, __local_doubling_time.
  rewrite !getitem_nonneg by lia.
  destruct (x_pts !! Z.to_nat index); [|reflexivity]. simpl.
  destruct (y_pts !! Z.to_nat index); [|reflexivity]. simpl.
  rewrite (lookup_ge_None_2 x_pts (Z.to_nat (index + window)));
    [reflexivity|].
  unfold Builtins.len in Hlen. lia.
Qed.

Lemma local_doubling_time_out_of_range_witness :
  raises (__local_doubling_time 1 [0; 1]%R [5; 3]%R 1)
    (IndexError "list index out of range").
Proof.
  apply local_doubling_time_out_of_range; try lia.
  vm_compute. discriminate.
Defined.

End FormulaMore.

(** ** More on [timepoints_from_image] *)

Section TimepointsFromImageMore.

Import HeapSpec.

Implicit Types (h : Heap.t) (content : gmap Z Heap.ref)
  (rp : RegionProperties.t) (image : list RegionProperties.t).

(** One turn of the loop: how it ends, what the copy then knows, and where
    the record of the region is. *)
Lemma body_effect (colonies : Heap.ref) (time_point : Z) rp h content
  (outcome : result unit) (h' : Heap.t) :
  Heap.dicts h !! colonies = Some content →
  refers_to_colonies h content →
  timepoints_from_image_body colonies time_point rp h = (outcome, h') →
  (outcome = Ok ()
   ∨ (outcome = Raise Colony.DuplicateTimepointError ∧ h' = h))
  ∧ ∃ content',
      Heap.dicts h' !! colonies = Some content'
      ∧ (∀ l c, content' !! l = Some c →
           content !! l = Some c ∨ Heap.colonies h !! c = None)
      ∧ (outcome = Ok () →
          ∃ c self',
            content' !! RegionProperties.label rp = Some c
            ∧ Heap.colonies h' !! c = Some self'
            ∧ Colony.__timepoints self' !! time_point
              = Some (timepoint_of_region rp time_point)
            ∧ (content !! RegionProperties.label rp = None →
               Heap.colonies h !! c = None
               ∧ self' = Colony.mk (RegionProperties.label rp)
                           {[ time_point := timepoint_of_region rp time_point ]})).
Proof.
  intros Hd Hrefers Hbody.
  destruct (content !! RegionProperties.label rp) as [c|] eqn:Hlabel.
  - destruct (Hrefers _ _ Hlabel) as [self Hself].
    rewrite (body_known _ _ _ _ _ _ _ Hd Hlabel Hself) in Hbody.
    destruct (Colony.__timepoints self !! time_point) as [stored|] eqn:Ht;
      simplify_eq; cbn [Heap.dicts Heap.colonies].
    + split; [by right|]. exists content. split; [done|].
      split; [by left|]. done.
    + split; [by left|]. exists content. split; [done|].
      split; [by left|]. intros _. eexists c, _.
      split; [done|]. rewrite lookup_insert_eq. split; [done|].
      split; [apply lookup_insert_eq|done].
  - rewrite (body_new _ _ _ _ _ Hd Hlabel) in Hbody.
    pose proof (fresh_colony_None h) as Hfresh.
    cbv zeta in Hbody. set (c := fresh (dom (Heap.colonies h))) in *.
    simplify_eq. cbn [Heap.dicts Heap.colonies].
    split; [by left|].
    exists (<[RegionProperties.label rp := c]> content).
    rewrite lookup_insert_eq. split; [done|]. split.
    + intros l c' Hc'.
      apply lookup_insert_Some in Hc' as [[_ <-]|[_ Hc']]; [by right|by left].
    + intros _. eexists c, _. rewrite !lookup_insert_eq.
      split; [done|]. split; [done|]. split; [apply lookup_insert_eq|].
      intros _. split; [done|]. reflexivity.
Qed.

(** The whole loop. *)
Lemma loop_effect (colonies : Heap.ref) (time_point : Z) image :
  ∀ h content (outcome : result unit) (h' : Heap.t),
  Heap.dicts h !! colonies = Some content →
  refers_to_colonies h content →
  Heap.for_each image (timepoints_from_image_body colonies time_point) h
    = (outcome, h') →
  (outcome = Ok () ∨ outcome = Raise Colony.DuplicateTimepointError)
  ∧ (∀ c self, Heap.colonies h !! c = Some self →
       (∀ rp, rp ∈ image → content !! RegionProperties.label rp ≠ Some c) →
       Heap.colonies h' !! c = Some self)
  ∧ (∀ c, Heap.colonies h' !! c = None → Heap.colonies h !! c = None)
  ∧ (outcome = Ok () →
      ∃ content',
        Heap.dicts h' !! colonies = Some content'
        ∧ ∀ rp, rp ∈ image →
            ∃ c self',
              content' !! RegionProperties.label rp = Some c
              ∧ Heap.colonies h' !! c = Some self'
              ∧ Colony.__timepoints self' !! time_point
                = Some (timepoint_of_region rp time_point)
              ∧ (content !! RegionProperties.label rp = None →
                 Heap.colonies h !! c = None
                 ∧ self' = Colony.mk (RegionProperties.label rp)
                             {[ time_point :=
                                  timepoint_of_region rp time_point ]})).
Proof.
  induction image as [|rp image IH]; intros h content outcome h' Hd Hrefers.
  - simpl. unfold Heap.ret. intros [= <- <-].
    split; [by left|]. split; [done|]. split; [done|].
    intros _. exists content. split; [done|].
    intros rp Hin. by apply elem_of_nil in Hin.
  - simpl. unfold Heap.bind at 1.
    destruct (timepoints_from_image_body colonies time_point rp h)
      as [o1 h1] eqn:Hbody.
    destruct (body_post _ _ _ _ _ _ _ Hd Hrefers Hbody)
      as (_ & _ & content1 & Hd1 & Hsub1 & Hrefers1 & Hdom1 & Hstep & _).
    destruct (body_effect _ _ _ _ _ _ _ Hd Hrefers Hbody)
      as (Hends & content1' & Hd1' & Hfrom & Hstored).
    assert (content1' = content1) as -> by congruence.
    assert (∀ c, Heap.colonies h1 !! c = None → Heap.colonies h !! c = None)
      as Hkeeps.
    { intros c Hnone. destruct (Heap.colonies h !! c) as [self|] eqn:Hc;
        [|done].
      destruct (Hstep _ _ Hc) as [?|(_ & _ & ?)]; congruence. }
    destruct Hends as [->|[-> ->]].
    + intros Hrest.
      destruct (IH _ _ _ _ Hd1 Hrefers1 Hrest)
        as (Hends' & Huntouched' & Hkeeps' & Hok').
      destruct (loop_post _ _ _ _ _ _ _ Hd1 Hrefers1 Hrest)
        as (_ & _ & content' & Hd' & Hsub' & _ & Hstable' & Hpost1).
      split; [done|]. split; [|split; [by auto|]].
      { intros c self Hc Hnot.
        apply Huntouched'.
        - destruct (Hstep _ _ Hc) as [?|(_ & Hrp & _)]; [done|].
          destruct (Hnot rp); [left|done].
        - intros rp' Hin Hc1.
          destruct (Hfrom _ _ Hc1) as [Hc0|Hnone]; [|congruence].
          by destruct (Hnot rp'); [right|]. }
      intros ->. destruct (Hok' eq_refl) as (content'' & Hd'' & Hall).
      assert (content'' = content') as -> by congruence.
      exists content'. split; [done|].
      intros rp' [->|Hin]%elem_of_cons.
      * destruct (Hstored eq_refl) as (c & self1 & Hc1 & Hself1 & Ht1 & Hnew).
        exists c, self1. split; [by eapply lookup_weaken|].
        split; [by eapply Hstable'|]. done.
      * destruct (Hall _ Hin) as (c & self' & Hc' & Hself' & Ht' & Hnew').
        exists c, self'. split; [done|]. split; [done|]. split; [done|].
        intros Hnone.
        destruct (content1 !! RegionProperties.label rp') as [c1|] eqn:Hc1.
        -- exfalso.
           assert (RegionProperties.label rp' = RegionProperties.label rp)
             as Hsame.
           { apply elem_of_dom_2 in Hc1. rewrite Hdom1 in Hc1.
             apply not_elem_of_dom in Hnone. set_solver. }
           destruct (Hstored eq_refl) as (c0 & self0 & Hc0 & Hself0 & Ht0 & _).
           destruct (Hpost1 eq_refl) as [_ Happ].
           destruct (Happ _ _ Hin Hc1) as (self & Hself & Htnone & _).
           rewrite Hsame in Hc1. congruence.
        -- destruct (Hnew' eq_refl) as [Hfresh ->]. split; [by auto|done].
    + intros [= <- <-]. split; [by right|]. split; [done|]. split; [done|].
      discriminate.
Qed.

(** The call, cut into the copy and the loop. *)
Lemma timepoints_from_image_unfold (colonies_dict : Heap.ref) image
  (time_point : Z) h content :
  Heap.dicts h !! colonies_dict = Some content →
  let colonies := fresh (dom (Heap.dicts h)) in
  let h1 := Heap.mk (<[colonies := content]> (Heap.dicts h)) (Heap.colonies h) in
  Heap.dicts h1 !! colonies = Some content
  ∧ refers_to_colonies h content = refers_to_colonies h1 content
  ∧ timepoints_from_image colonies_dict image time_point h
    = match Heap.for_each image
              (timepoints_from_image_body colonies time_point) h1 with
      | (Ok _, h2) => (Ok colonies, h2)
      | (Raise e, h2) => (Raise e, h2)
      | (Stuck, h2) => (Stuck, h2)
      end.
Proof.
  intros Hd. cbv zeta. split; [apply lookup_insert_eq|]. split; [done|].
  unfold timepoints_from_image, Heap.bind, Heap.dict_copy. rewrite Hd.
  destruct (Heap.for_each _ _ _) as [[[]|e|] h2]; reflexivity.
Qed.

(** The effect of a call on the colonies. *)
Lemma timepoints_from_image_effect (colonies_dict : Heap.ref) image
  (time_point : Z) h content (outcome : result Heap.ref) (h' : Heap.t) :
  Heap.dicts h !! colonies_dict = Some content →
  refers_to_colonies h content →
  timepoints_from_image colonies_dict image time_point h = (outcome, h') →
  (returns outcome ∨ raises outcome Colony.DuplicateTimepointError)
  ∧ (∀ c self, Heap.colonies h !! c = Some self →
       (∀ rp, rp ∈ image → content !! RegionProperties.label rp ≠ Some c) →
       Heap.colonies h' !! c = Some self)
  ∧ ((∃ rp c self stored,
        rp ∈ image ∧ content !! RegionProperties.label rp = Some c
        ∧ Heap.colonies h !! c = Some self
        ∧ Colony.__timepoints self !! time_point = Some stored) →
     raises outcome Colony.DuplicateTimepointError)
  ∧ ∀ colonies, outcome = Ok colonies →
      ∃ content',
        Heap.dicts h' !! colonies = Some content'
        ∧ refers_to_colonies h' content'
        ∧ ∀ rp, rp ∈ image →
            ∃ c self',
              content' !! RegionProperties.label rp = Some c
              ∧ Heap.colonies h' !! c = Some self'
              ∧ Colony.__timepoints self' !! time_point
                = Some (timepoint_of_region rp time_point)
              ∧ (content !! RegionProperties.label rp = None →
                 Heap.colonies h !! c = None
                 ∧ self' = Colony.mk (RegionProperties.label rp)
                             {[ time_point :=
                                  timepoint_of_region rp time_point ]}).
Proof.
  intros Hd Hrefers Hcall.
  destruct (timepoints_from_image_unfold colonies_dict image time_point
              h content Hd) as (Hd1 & _ & Hunfold).
  rewrite Hunfold in Hcall. clear Hunfold.
  set (colonies := fresh (dom (Heap.dicts h))) in *.
  set (h1 := Heap.mk (<[colonies := content]> (Heap.dicts h))
               (Heap.colonies h)) in *.
  assert (refers_to_colonies h1 content) as Hrefers1 by exact Hrefers.
  destruct (Heap.for_each image
              (timepoints_from_image_body colonies time_point) h1)
    as [o2 h2] eqn:Hloop.
  destruct (loop_effect _ _ _ _ _ _ _ Hd1 Hrefers1 Hloop)
    as (Hends & Huntouched & _ & Hok).
  destruct (loop_post _ _ _ _ _ _ _ Hd1 Hrefers1 Hloop)
    as (_ & _ & content' & Hd' & _ & Hrefers' & _ & Hpost).
  destruct Hends as [->| ->]; simplify_eq.
  - split; [left; by eexists|]. split; [exact Huntouched|]. split.
    + intros (rp & c & self & stored & Hin & Hc & Hself & Ht).
      destruct (Hpost eq_refl) as [_ Happ].
      destruct (Happ _ _ Hin Hc) as (self0 & Hself0 & Hnone & _).
      unfold h1 in Hself0. simpl in Hself0. congruence.
    + intros ? [= <-]. destruct (Hok eq_refl) as (content'' & Hd'' & Hall).
      assert (content'' = content') as -> by congruence.
      exists content'. done.
  - split; [by right|]. split; [exact Huntouched|]. split; [done|].
    discriminate.
Qed.

(** X17.  When [timepoints_from_image] returns, the dict it returns maps
    the label of every region of the image to a colony that stores the
    record of that region at the timestamp of the call. *)
Theorem timepoints_from_image_stores_every_region (colonies_dict : Heap.ref)
  image (time_point : Z) h content (colonies : Heap.ref) (h' : Heap.t) :
  Heap.dicts h !! colonies_dict = Some content →
  refers_to_colonies h content →
  timepoints_from_image colonies_dict image time_point h = (Ok colonies, h') →
  ∃ content',
    Heap.dicts h' !! colonies = Some content'
    ∧ ∀ rp, rp ∈ image →
        ∃ c self',
          content' !! RegionProperties.label rp = Some c
          ∧ Heap.colonies h' !! c = Some self'
          ∧ Colony.__timepoints self' !! time_point
            = Some (timepoint_of_region rp time_point).
Proof.
  intros Hd Hrefers Hcall.
  destruct (timepoints_from_image_effect _ _ _ _ _ _ _ Hd Hrefers Hcall)
    as (_ & _ & _ & Hok).
  destruct (Hok _ eq_refl) as (content' & Hd' & _ & Hall).
  exists content'. split; [done|]. intros rp Hin.
  destruct (Hall _ Hin) as (c & self' & ? & ? & ? & _). eauto.
Qed.

(** X18.  Whether the call returns or raises, a colony of the heap that
    the caller's dict does not know under the label of any region keeps
    its id and its records. *)
Theorem timepoints_from_image_leaves_other_colonies
  (colonies_dict : Heap.ref) image (time_point : Z) h content
  (outcome : result Heap.ref) (h' : Heap.t) (c : Heap.ref) (self : Colony.t) :
  Heap.dicts h !! colonies_dict = Some content →
  refers_to_colonies h content →
  timepoints_from_image colonies_dict image time_point h = (outcome, h') →
  Heap.colonies h !! c = Some self →
  (∀ rp, rp ∈ image → content !! RegionProperties.label rp ≠ Some c) →
  Heap.colonies h' !! c = Some self.
Proof.
  intros Hd Hrefers Hcall Hc Hnot.
  destruct (timepoints_from_image_effect _ _ _ _ _ _ _ Hd Hrefers Hcall)
    as (_ & Huntouched & _). by apply Huntouched.
Qed.

(** X19.  When the call returns, a label of the image that the caller's
    dict did not know names, in the dict returned, a [Colony] object that
    is new in the heap, has the label as its id and stores the record of
    the region and nothing else. *)
Theorem timepoints_from_image_new_label (colonies_dict : Heap.ref)
  image (time_point : Z) h content (colonies : Heap.ref) (h' : Heap.t)
  rp :
  Heap.dicts h !! colonies_dict = Some content →
  refers_to_colonies h content →
  timepoints_from_image colonies_dict image time_point h = (Ok colonies, h') →
  rp ∈ image →
  content !! RegionProperties.label rp = None →
  ∃ content' c,
    Heap.dicts h' !! colonies = Some content'
    ∧ content' !! RegionProperties.label rp = Some c
    ∧ Heap.colonies h !! c = None
    ∧ Heap.colonies h' !! c
      = Some (Colony.mk (RegionProperties.label rp)
                {[ time_point := timepoint_of_region rp time_point ]}).
Proof.
  intros Hd Hrefers Hcall Hin Hnone.
  destruct (timepoints_from_image_effect _ _ _ _ _ _ _ Hd Hrefers Hcall)
    as (_ & _ & _ & Hok).
  destruct (Hok _ eq_refl) as (content' & Hd' & _ & Hall).
  destruct (Hall _ Hin) as (c & self' & Hc & Hself' & _ & Hnew).
  destruct (Hnew Hnone) as [Hfresh ->]. by exists content', c.
Qed.

(** X20.  The call either returns or raises the [ValueError] of an
    existing time point, and it raises whenever the caller's dict knows
    the label of some region as a colony that already stores the
    timestamp. *)
Theorem timepoints_from_image_raises_duplicate (colonies_dict : Heap.ref)
  image (time_point : Z) h content (outcome : result Heap.ref)
  (h' : Heap.t) :
  Heap.dicts h !! colonies_dict = Some content →
  refers_to_colonies h content →
  timepoints_from_image colonies_dict image time_point h = (outcome, h') →
  (returns outcome ∨ raises outcome Colony.DuplicateTimepointError)
  ∧ ((∃ rp c self stored,
        rp ∈ image ∧ content !! RegionProperties.label rp = Some c
        ∧ Heap.colonies h !! c = Some self
        ∧ Colony.__timepoints self !! time_point = Some stored) →
     raises outcome Colony.DuplicateTimepointError).
Proof.
  intros Hd Hrefers Hcall.
  destruct (timepoints_from_image_effect _ _ _ _ _ _ _ Hd Hrefers Hcall)
    as (Hends & _ & Hraises & _). done.
Qed.

(** X21.  A frame cannot be ingested twice: after a call that returned,
    a second call with the dict returned, the same image (of at least one
    region) and the same timestamp raises the [ValueError] of an existing
    time point. *)
Theorem timepoints_from_image_twice (colonies_dict : Heap.ref)
  image (time_point : Z) h content (colonies : Heap.ref) (h' : Heap.t) :
  Heap.dicts h !! colonies_dict = Some content →
  refers_to_colonies h content →
  timepoints_from_image colonies_dict image time_point h = (Ok colonies, h') →
  image ≠ [] →
  raises (timepoints_from_image colonies image time_point h').1
    Colony.DuplicateTimepointError.
Proof.
  intros Hd Hrefers Hcall Hregions.
  destruct (timepoints_from_image_effect _ _ _ _ _ _ _ Hd Hrefers Hcall)
    as (_ & _ & _ & Hok).
  destruct (Hok _ eq_refl) as (content' & Hd' & Hrefers' & Hall).
  destruct image as [|rp image]; [done|].
  destruct (Hall rp) as (c & self' & Hc & Hself' & Ht & _); [left|].
  destruct (timepoints_from_image colonies (rp :: image) time_point h')
    as [outcome2 h''] eqn:Hcall2.
  destruct (timepoints_from_image_effect _ _ _ _ _ _ _ Hd' Hrefers' Hcall2)
    as (_ & _ & Hraises & _).
  apply Hraises. exists rp, c, self', (timepoint_of_region rp time_point).
  split; [left|done].
Qed.

(** A loop over two lists, one after the other. *)
Lemma for_each_app {A : Type} (l1 l2 : list A)
  (body : A → Heap.stateful unit) (h : Heap.t) :
  Heap.for_each (l1 ++ l2) body h
  = match Heap.for_each l1 body h with
    | (Ok _, h1) => Heap.for_each l2 body h1
    | other => other
    end.
Proof.
  revert h. induction l1 as [|a l1 IH]; intros h; simpl.
  - reflexivity.
  - unfold Heap.bind. destruct (body a h) as [[[]|e|] h1];
      [apply IH|reflexivity|reflexivity].
Qed.

(** X22.  A call that raises does not undo what it did: when the regions
    before the failing one were appended without meeting a stored
    timestamp, the colonies that the caller's dict knows under their
    labels hold their records after the call has raised. *)
Theorem timepoints_from_image_keeps_earlier_appends
  (colonies_dict : Heap.ref) (before after : list RegionProperties.t) rp
  (time_point : Z) h content (outcome : result Heap.ref) (h' : Heap.t)
  (c : Heap.ref) (self : Colony.t) (stored : Colony.Timepoint.t) :
  Heap.dicts h !! colonies_dict = Some content →
  refers_to_colonies h content →
  appends_are_new h content before time_point →
  content !! RegionProperties.label rp = Some c →
  Heap.colonies h !! c = Some self →
  Colony.__timepoints self !! time_point = Some stored →
  timepoints_from_image colonies_dict (before ++ rp :: after) time_point h
    = (outcome, h') →
  raises outcome Colony.DuplicateTimepointError
  ∧ ∀ rp' c', rp' ∈ before →
      content !! RegionProperties.label rp' = Some c' →
      ∃ self', Heap.colonies h !! c' = Some self'
        ∧ Heap.colonies h' !! c'
          = Some (appended self' time_point
                    (timepoint_of_region rp' time_point)).
Proof.
  intros Hd Hrefers Hnew Hc Hself Hstored Hcall.
  destruct (timepoints_from_image_unfold colonies_dict
              (before ++ rp :: after) time_point h content Hd)
    as (Hd1 & _ & Hunfold).
  rewrite Hunfold in Hcall. clear Hunfold.
  set (colonies := fresh (dom (Heap.dicts h))) in *.
  set (h1 := Heap.mk (<[colonies := content]> (Heap.dicts h))
               (Heap.colonies h)) in *.
  assert (refers_to_colonies h1 content) as Hrefers1 by exact Hrefers.
  assert (appends_are_new h1 content before time_point) as Hnew1
      by exact Hnew.
  destruct (loop_returns colonies time_point before h1 content Hd1 Hrefers1
              Hnew1) as [hm Hbefore].
  destruct (loop_post _ _ _ _ _ _ _ Hd1 Hrefers1 Hbefore)
    as (_ & _ & contentm & Hdm & Hsubm & Hrefersm & Hstable & Hok).
  destruct (Hok eq_refl) as [_ Happ].
  rewrite for_each_app, Hbefore in Hcall. simpl in Hcall.
  unfold Heap.bind at 1 in Hcall.
  assert (Heap.colonies hm !! c = Some self) as Hselfm
      by (eapply Hstable; eauto).
  rewrite (body_known _ _ _ _ _ _ _ Hdm
             (lookup_weaken _ _ _ _ Hc Hsubm) Hselfm) in Hcall.
  rewrite Hstored in Hcall. simplify_eq.
  split; [reflexivity|].
  intros rp' c' Hin Hc'.
  destruct (Happ _ _ Hin Hc') as (self' & Hself' & _ & Hfinal). eauto.
Qed.

(** *** Witnesses on the sample heaps *)

Lemma one_colony_refers :
  refers_to_colonies one_colony {[ 7 := 1%positive ]}.
Proof.
  intros label c Hc. apply lookup_singleton_Some in Hc as [<- <-].
  vm_compute. eauto.
Qed.

Lemma two_colonies_refers :
  refers_to_colonies MoreInputs.two_colonies MoreInputs.two_labels.
Proof.
  intros label c Hc. unfold MoreInputs.two_labels in Hc.
  apply lookup_insert_Some in Hc as [[<- <-]|[_ Hc]].
  - vm_compute. eauto.
  - apply lookup_singleton_Some in Hc as [<- <-]. vm_compute. eauto.
Qed.

Lemma one_colony_call :
  timepoints_from_image 1%positive two_regions 5 one_colony
  = (Ok 2%positive,
     (timepoints_from_image 1%positive two_regions 5 one_colony).2).
Proof. vm_compute. reflexivity. Qed.

Lemma timepoints_from_image_stores_every_region_witness :
  ∃ content',
    Heap.dicts (timepoints_from_image 1%positive two_regions 5 one_colony).2
      !! 2%positive = Some content'
    ∧ ∀ rp, rp ∈ two_regions →
        ∃ c self',
          content' !! RegionProperties.label rp = Some c
          ∧ Heap.colonies
              (timepoints_from_image 1%positive two_regions 5 one_colony).2
              !! c = Some self'
          ∧ Colony.__timepoints self' !! 5 = Some (timepoint_of_region rp 5).
Proof.
  apply (timepoints_from_image_stores_every_region 1%positive two_regions 5
           one_colony {[ 7 := 1%positive ]}).
  - reflexivity.
  - exact one_colony_refers.
  - exact one_colony_call.
Defined.

Lemma timepoints_from_image_leaves_other_colonies_witness :
  Heap.colonies
    (timepoints_from_image 1%positive [region 7 4] 3 MoreInputs.two_colonies).2
    !! 2%positive
  = Some (Colony.mk 9 {[ 0 := Inputs.record 0 2; 5 := Inputs.record 5 6 ]}).
Proof.
  apply (timepoints_from_image_leaves_other_colonies 1%positive [region 7 4] 3
           MoreInputs.two_colonies MoreInputs.two_labels
           (timepoints_from_image 1%positive [region 7 4] 3
              MoreInputs.two_colonies).1).
  - reflexivity.
  - exact two_colonies_refers.
  - apply surjective_pairing.
  - reflexivity.
  - intros rp Hin. apply list_elem_of_singleton in Hin as ->.
    vm_compute. discriminate.
Defined.

Lemma timepoints_from_image_new_label_witness :
  ∃ content' c,
    Heap.dicts (timepoints_from_image 1%positive two_regions 5 one_colony).2
      !! 2%positive = Some content'
    ∧ content' !! 8 = Some c
    ∧ Heap.colonies one_colony !! c = None
    ∧ Heap.colonies
        (timepoints_from_image 1%positive two_regions 5 one_colony).2 !! c
      = Some (Colony.mk 8 {[ 5 := timepoint_of_region (region 8 2) 5 ]}).
Proof.
  apply (timepoints_from_image_new_label 1%positive two_regions 5
           one_colony {[ 7 := 1%positive ]} 2%positive _ (region 8 2)).
  - reflexivity.
  - exact one_colony_refers.
  - exact one_colony_call.
  - set_solver.
  - vm_compute. reflexivity.
Defined.

Lemma timepoints_from_image_raises_duplicate_witness :
  (returns (timepoints_from_image 1%positive two_regions 0 one_colony).1
   ∨ raises (timepoints_from_image 1%positive two_regions 0 one_colony).1
       Colony.DuplicateTimepointError)
  ∧ raises (timepoints_from_image 1%positive two_regions 0 one_colony).1
      Colony.DuplicateTimepointError.
Proof.
  destruct (timepoints_from_image_raises_duplicate 1%positive two_regions 0
              one_colony {[ 7 := 1%positive ]}
              (timepoints_from_image 1%positive two_regions 0 one_colony).1
              (timepoints_from_image 1%positive two_regions 0 one_colony).2)
    as [Hends Hraises].
  - reflexivity.
  - exact one_colony_refers.
  - apply surjective_pairing.
  - split; [exact Hends|]. apply Hraises.
    exists (region 7 4), 1%positive, (Colony.mk 7 {[ 0 := Inputs.record 0 3 ]}),
      (Inputs.record 0 3).
    split; [set_solver|]. repeat split; vm_compute; reflexivity.
Defined.

Lemma timepoints_from_image_twice_witness :
  raises
    (timepoints_from_image 2%positive two_regions 5
       (timepoints_from_image 1%positive two_regions 5 one_colony).2).1
    Colony.DuplicateTimepointError.
Proof.
  apply (timepoints_from_image_twice 1%positive two_regions 5 one_colony
           {[ 7 := 1%positive ]}).
  - reflexivity.
  - exact one_colony_refers.
  - exact one_colony_call.
  - discriminate.
Defined.

Lemma timepoints_from_image_keeps_earlier_appends_witness :
  raises
    (timepoints_from_image 1%positive ([region 7 4] ++ region 9 1 :: []) 5
       MoreInputs.two_colonies).1
    Colony.DuplicateTimepointError
  ∧ ∀ rp' c', rp' ∈ [region 7 4] →
      MoreInputs.two_labels !! RegionProperties.label rp' = Some c' →
      ∃ self', Heap.colonies MoreInputs.two_colonies !! c' = Some self'
        ∧ Heap.colonies
            (timepoints_from_image 1%positive
               ([region 7 4] ++ region 9 1 :: []) 5
               MoreInputs.two_colonies).2 !! c'
          = Some (appended self' 5 (timepoint_of_region rp' 5)).
Proof.
  apply (timepoints_from_image_keeps_earlier_appends 1%positive
           [region 7 4] [] (region 9 1) 5 MoreInputs.two_colonies
           MoreInputs.two_labels _ _ 2%positive
           (Colony.mk 9 {[ 0 := Inputs.record 0 2; 5 := Inputs.record 5 6 ]})
           (Inputs.record 5 6)).
  - reflexivity.
  - exact two_colonies_refers.
  - split; [|split].
    + vm_compute. repeat constructor; set_solver.
    + intros l1 l2 c' Hl1 Hl2 _ _.
      apply list_elem_of_singleton in Hl1, Hl2. congruence.
    + intros l c' self' Hl Hc' Hself'.
      apply list_elem_of_singleton in Hl. subst l.
      vm_compute in Hc'. injection Hc' as <-.
      vm_compute in Hself'. injection Hself' as <-.
      vm_compute. reflexivity.
  - vm_compute. reflexivity.
  - vm_compute. reflexivity.
  - vm_compute. reflexivity.
  - apply surjective_pairing.
Defined.

End TimepointsFromImageMore.

(** ** More on the colony filters *)

Section FilterMore.

Import Main.

Context {Colony : Type}.
Variable timepoints_len : Colony → Z.
Variable growth_rate : Colony → spec_float.
Variable timepoint_first_area : Colony → Z.

Lemma dict_filter_comm (f g : Z * Colony → bool) (d : gmap Z Colony) :
  dict_filter f (dict_filter g d) = dict_filter g (dict_filter f d).
Proof.
  apply map_eq. intros label. apply option_eq. intros c.
  rewrite !lookup_dict_filter. tauto.
Qed.

(** The filters only remove: the dict they leave is a part of the
    dict they were given, each label with the colony it had. *)
Lemma filter_colonies_subdict (len_time_points : Z)
  (plate_colonies : gmap Z Colony) :
  filter_colonies timepoints_len growth_rate timepoint_first_area
    len_time_points plate_colonies ⊆ plate_colonies.
Proof.
  unfold filter_colonies, dict_filter.
  etrans; [apply map_filter_subseteq|].
  etrans; [apply map_filter_subseteq|]. apply map_filter_subseteq.
Qed.

(** X23.  The order of the three filters does not matter: each of the
    five other orders leaves the same dict as the order of [main]. *)
Theorem filter_colonies_any_order (len_time_points : Z)
  (plate_colonies : gmap Z Colony) :
  let data := sufficient_data_points timepoints_len len_time_points in
  let growth := shows_growth growth_rate in
  let small := appears_small timepoint_first_area in
  let kept :=
    filter_colonies timepoints_len growth_rate timepoint_first_area
      len_time_points plate_colonies in
  dict_filter small (dict_filter data (dict_filter growth plate_colonies)) = kept
  ∧ dict_filter growth (dict_filter small (dict_filter data plate_colonies)) = kept
  ∧ dict_filter growth (dict_filter data (dict_filter small plate_colonies)) = kept
  ∧ dict_filter data (dict_filter small (dict_filter growth plate_colonies)) = kept
  ∧ dict_filter data (dict_filter growth (dict_filter small plate_colonies)) = kept.
Proof.
  cbv zeta. unfold filter_colonies.
  set (data := sufficient_data_points timepoints_len len_time_points).
  set (growth := shows_growth growth_rate).
  set (small := appears_small timepoint_first_area).
  repeat split; apply map_eq; intros label; apply option_eq; intros c;
    rewrite !lookup_dict_filter; tauto.
Qed.

(** Filtering again changes nothing. *)
Lemma filter_colonies_idempotent (len_time_points : Z)
  (plate_colonies : gmap Z Colony) :
  filter_colonies timepoints_len growth_rate timepoint_first_area
    len_time_points
    (filter_colonies timepoints_len growth_rate timepoint_first_area
       len_time_points plate_colonies)
  = filter_colonies timepoints_len growth_rate timepoint_first_area
      len_time_points plate_colonies.
Proof.
  unfold filter_colonies.
  apply map_eq; intros label; apply option_eq; intros c.
  rewrite !lookup_dict_filter. tauto.
Qed.

End FilterMore.

Lemma sufficient_data_points_exact_witness :
  Float.int_gt 21 (Float.mul (Float.of_int 100) Float.lit_0_2) = true
  ↔ 100 < 5 * 21.
Proof. apply sufficient_data_points_exact. lia. Defined.

(** ** [colonies_rename_sequential] *)

Section Rename.

Import Plate.

(** The loop, from any counter. *)
Lemma rename_loop_effect (items : list Heap.ref) :
  ∀ (next : Z) (bound : option Z) (h : Heap.t),
  NoDup items →
  (∀ c, c ∈ items → is_Some (Heap.colonies h !! c)) →
  ∃ h',
    rename_loop items next bound h
    = (match items, bound with
       | [], Some i => Returned i
       | [], None => UnboundLocalError
       | _ :: _, _ => Returned (next + Z.of_nat (length items) - 1)
       end, h')
    ∧ Heap.dicts h' = Heap.dicts h
    ∧ (∀ (k : nat) c, items !! k = Some c →
         ∃ self, Heap.colonies h !! c = Some self
           ∧ Heap.colonies h' !! c
             = Some (Colony.mk (next + Z.of_nat k) (Colony.__timepoints self)))
    ∧ (∀ c, c ∉ items → Heap.colonies h' !! c = Heap.colonies h !! c).
Proof.
  induction items as [|c items IH]; intros next bound h Hnodup Hvalid.
  - exists h. simpl. split; [by destruct bound|]. split; [done|].
    split; [|done]. intros k c Hk. discriminate Hk.
  - apply NoDup_cons in Hnodup as [Hnotin Hnodup].
    destruct (Hvalid c) as [self Hself]; [left|].
    simpl. unfold set_id. rewrite Hself.
    set (h1 := Heap.mk (Heap.dicts h)
                 (<[c := Colony.mk next (Colony.__timepoints self)]>
                    (Heap.colonies h))).
    destruct (IH (next + 1) (Some next) h1 Hnodup) as (h' & Hrun & Hd & Hids & Hothers).
    { intros c' Hc'. unfold h1. simpl.
      destruct (decide (c' = c)) as [->|Hne]; [done|].
      rewrite lookup_insert_ne by done. apply Hvalid. by right. }
    exists h'. split; [|split; [|split]].
    + rewrite Hrun. f_equal. destruct items; f_equal; simpl length; lia.
    + by rewrite Hd.
    + intros [|k] c' Hk; simpl in Hk.
      * injection Hk as <-. exists self. split; [done|].
        rewrite Hothers by done. unfold h1. simpl.
        rewrite lookup_insert_eq. do 2 f_equal. lia.
      * destruct (Hids _ _ Hk) as (self' & Hself' & Hfinal).
        assert (c' ≠ c) as Hne.
        { intros ->. apply Hnotin. by eapply list_elem_of_lookup_2. }
        unfold h1 in Hself'. simpl in Hself'.
        rewrite lookup_insert_ne in Hself' by done.
        exists self'. split; [done|]. rewrite Hfinal. do 2 f_equal. lia.
    + intros c' Hc'. apply not_elem_of_cons in Hc' as [Hne Hc'].
      rewrite Hothers by done. unfold h1. simpl.
      by rewrite lookup_insert_ne.
Qed.

(** X24.  On a plate with at least one colony, and each colony once in
    its collection, [colonies_rename_sequential] gives the k-th colony
    (from 0) the id start + k and keeps its records, touches no other
    colony and no dict, and returns the id of the last colony. *)
Theorem colonies_rename_sequential_ids (items : list Heap.ref) (start : Z)
  (h : Heap.t) :
  items ≠ [] → NoDup items →
  (∀ c, c ∈ items → is_Some (Heap.colonies h !! c)) →
  ∃ h',
    colonies_rename_sequential items start h
    = (Returned (start + Z.of_nat (length items) - 1), h')
    ∧ Heap.dicts h' = Heap.dicts h
    ∧ (∀ (k : nat) c, items !! k = Some c →
         ∃ self, Heap.colonies h !! c = Some self
           ∧ Heap.colonies h' !! c
             = Some (Colony.mk (start + Z.of_nat k) (Colony.__timepoints self)))
    ∧ (∀ c, c ∉ items → Heap.colonies h' !! c = Heap.colonies h !! c).
Proof.
  intros Hne Hnodup Hvalid.
  destruct (rename_loop_effect items start None h Hnodup Hvalid)
    as (h' & Hrun & Hrest).
  exists h'. split; [|exact Hrest].
  unfold colonies_rename_sequential. rewrite Hrun. by destruct items.
Qed.

(** X25.  [colonies_rename_sequential] ends with [UnboundLocalError]
    exactly when the plate has no colony: the [i] it returns is bound by
    the loop only.  Nothing is changed then. *)
Theorem colonies_rename_sequential_empty (items : list Heap.ref) (start : Z)
  (h : Heap.t) :
  NoDup items →
  (∀ c, c ∈ items → is_Some (Heap.colonies h !! c)) →
  ((colonies_rename_sequential items start h).1 = UnboundLocalError
   ↔ items = [])
  ∧ (items = [] → (colonies_rename_sequential items start h).2 = h).
Proof.
  intros Hnodup Hvalid.
  destruct (rename_loop_effect items start None h Hnodup Hvalid)
    as (h' & Hrun & _).
  unfold colonies_rename_sequential. rewrite Hrun. simpl. split.
  - destruct items; split; try done.
  - intros ->. simpl in Hrun. by injection Hrun as <-.
Qed.

Lemma colonies_rename_sequential_ids_witness :
  ∃ h',
    colonies_rename_sequential [2%positive; 1%positive] 1
      MoreInputs.two_colonies
    = (Returned (1 + Z.of_nat (length [2%positive; 1%positive]) - 1), h')
    ∧ Heap.dicts h' = Heap.dicts MoreInputs.two_colonies
    ∧ (∀ (k : nat) c, [2%positive; 1%positive] !! k = Some c →
         ∃ self, Heap.colonies MoreInputs.two_colonies !! c = Some self
           ∧ Heap.colonies h' !! c
             = Some (Colony.mk (1 + Z.of_nat k) (Colony.__timepoints self)))
    ∧ (∀ c, c ∉ [2%positive; 1%positive] →
         Heap.colonies h' !! c = Heap.colonies MoreInputs.two_colonies !! c).
Proof.
  apply colonies_rename_sequential_ids.
  - discriminate.
  - repeat constructor; set_solver.
  - intros c Hc. apply elem_of_cons in Hc as [->|Hc].
    + vm_compute. eauto.
    + apply list_elem_of_singleton in Hc as ->. vm_compute. eauto.
Defined.

Lemma colonies_rename_sequential_empty_witness :
  ((colonies_rename_sequential [] 1 MoreInputs.two_colonies).1
   = UnboundLocalError ↔ @nil Heap.ref = [])
  ∧ (@nil Heap.ref = [] →
     (colonies_rename_sequential [] 1 MoreInputs.two_colonies).2
     = MoreInputs.two_colonies).
Proof.
  apply colonies_rename_sequential_empty.
  - constructor.
  - intros c Hc. by apply elem_of_nil in Hc.
Defined.

End Rename.

(** ** The directory of a plate *)

Section PlateDirectoryFacts.

Import PlateDirectory.

Lemma pretty_N_char_not_underscore (x : N) : pretty_N_char x ≠ "_"%char.
Proof. unfold pretty_N_char. repeat case_match; discriminate. Qed.

Lemma pretty_N_go_free (x : N) :
  ∀ s, free_of "_" s → free_of "_" (pretty_N_go x s).
Proof.
  induction (N.lt_wf_0 x) as [x _ IH]; intros s Hs.
  destruct (decide (x = 0)%N) as [->|Hne].
  - by rewrite pretty_N_go_0.
  - rewrite pretty_N_go_step by lia. apply IH.
    + apply N.div_lt; lia.
    + split; [apply pretty_N_char_not_underscore|exact Hs].
Qed.

Lemma str_free (n : Z) : free_of "_" (str n).
Proof.
  unfold str, pretty, pretty_Z, pretty, pretty_positive, pretty, pretty_N.
  destruct n as [|p|p]; simpl.
  - split; [discriminate|done].
  - by apply pretty_N_go_free.
  - split; [discriminate|]. by apply pretty_N_go_free.
Qed.

Lemma append_separator_inj (s1 s2 t1 t2 : string) :
  free_of "_" s1 → free_of "_" s2 →
  s1 +:+ String "_" t1 = s2 +:+ String "_" t2 → s1 = s2 ∧ t1 = t2.
Proof.
  revert s2. induction s1 as [|a s1 IH]; intros [|b s2]; simpl.
  - intros _ _ [= ->]. done.
  - intros _ [Hb _] [= <- _]. done.
  - intros [Ha _] _ [= -> _]. done.
  - intros [_ H1] [_ H2] [= -> Hrest].
    destruct (IH _ H1 H2 Hrest) as [-> ->]. done.
Qed.

(** X26.  The directory name of a plate tells its position: two
    positions with the same name [row_R_col_C] have the same row and the
    same column. *)
Theorem child_path_inj (row col row' col' : Z) :
  child_path row col = child_path row' col' → row = row' ∧ col = col'.
Proof.
  unfold child_path. simpl. intros [= Heq].
  apply append_separator_inj in Heq as [Hrow Hcol];
    [|apply str_free|apply str_free].
  injection Hcol as Hcol.
  split; by apply (inj pretty).
Qed.

Lemma child_path_inj_witness : 2 = 2 ∧ 1 = 1.
Proof. apply (child_path_inj 2 1 2 1). reflexivity. Defined.

Lemma child_path_2_1 : child_path 2 1 = "row_2_col_1".
Proof. vm_compute. reflexivity. Qed.

End PlateDirectoryFacts.
